(** * Air Quality Checker (src/app.py): a shallow embedding and its properties

    The script asks a geocoding endpoint for the coordinates of a city, asks
    an air-pollution endpoint for the current reading at those coordinates,
    and shows the AQI category with its label and advice, a table of the
    pollutant concentrations and a bar chart.

    Python values are a small inductive type, Python exceptions an error
    result, and the Streamlit calls, the outbound HTTP calls and the two
    memoisation caches an explicit world threaded through a state monad.
    The network, the interpreter's [str()] and uppercase table, and the
    plotting library are parameters of the program. *)

From Stdlib Require Import List String Ascii ZArith NArith Lia Bool DecimalPos.
Import ListNotations.

Set Warnings "-register-all".
Local Open Scope N_scope.

(** ** Python strings

    A [str] is a sequence of Unicode code points.  Literals are written as
    in the source file, which is UTF-8 encoded, and decoded here. *)

Definition pystr := list N.

Fixpoint utf8_decode (bs : list N) : pystr :=
  match bs with
  | [] => []
  | b :: r =>
      if b <? 128 then b :: utf8_decode r
      else if b <? 224 then
        match r with
        | c1 :: r1 => ((b - 192) * 64 + (c1 - 128)) :: utf8_decode r1
        | [] => [b]
        end
      else if b <? 240 then
        match r with
        | c1 :: c2 :: r2 =>
            ((b - 224) * 4096 + (c1 - 128) * 64 + (c2 - 128)) :: utf8_decode r2
        | _ => [b]
        end
      else
        match r with
        | c1 :: c2 :: c3 :: r3 =>
            ((b - 240) * 262144 + (c1 - 128) * 4096 + (c2 - 128) * 64 + (c3 - 128))
              :: utf8_decode r3
        | _ => [b]
        end
  end.

Definition py (s : string) : pystr :=
  utf8_decode (map N_of_ascii (list_ascii_of_string s)).

Fixpoint pystr_eqb (a b : pystr) : bool :=
  match a, b with
  | [], [] => true
  | x :: a', y :: b' => (x =? y) && pystr_eqb a' b'
  | _, _ => false
  end.

(** [str.upper()] maps every code point through Unicode's full uppercase
    mapping.  On ASCII that is a-z to A-Z; the table for the other code
    points belongs to the interpreter, and is taken as [uni_upper]. *)
Definition upper_char (uni_upper : N -> pystr) (c : N) : pystr :=
  if (97 <=? c) && (c <=? 122) then [c - 32]
  else if c <? 128 then [c]
  else uni_upper c.

Definition upper (uni_upper : N -> pystr) (s : pystr) : pystr :=
  flat_map (upper_char uni_upper) s.

(** The code points [str.strip()] removes: those for which [str.isspace]
    holds. *)
Definition isspace (c : N) : bool :=
  ((9 <=? c) && (c <=? 13)) || ((28 <=? c) && (c <=? 32))
  || (c =? 133) || (c =? 160) || (c =? 5760)
  || ((8192 <=? c) && (c <=? 8202))
  || (c =? 8232) || (c =? 8233) || (c =? 8239) || (c =? 8287) || (c =? 12288).

Fixpoint lstrip (s : pystr) : pystr :=
  match s with
  | c :: r => if isspace c then lstrip r else s
  | [] => []
  end.

Definition strip (s : pystr) : pystr := rev (lstrip (rev (lstrip s))).

Fixpoint starts_with (p s : pystr) : bool :=
  match p, s with
  | [], _ => true
  | x :: p', y :: s' => (x =? y) && starts_with p' s'
  | _ :: _, [] => false
  end.

(** [p in s] for two strings: [p] occurs in [s] as a substring. *)
Fixpoint substring_of (p s : pystr) : bool :=
  starts_with p s || match s with [] => false | _ :: s' => substring_of p s' end.

(** ** Python values, as the JSON decoder produces them *)

(** A float is a signed dyadic number [(-1)^neg * m * 2^e], an infinity or
    a NaN. *)
Inductive pyfloat : Type :=
| FFin (neg : bool) (m : N) (e : Z)
| FInf (neg : bool)
| FNaN.

(** A [dict] keeps its entries in insertion order; JSON object keys are
    strings. *)
Inductive pyvalue : Type :=
| PyNone
| PyBool (b : bool)
| PyInt (z : Z)
| PyFloat (f : pyfloat)
| PyStr (s : pystr)
| PyList (l : list pyvalue)
| PyDict (d : list (pystr * pyvalue)).

Definition pyfloat_eqb (a b : pyfloat) : bool :=
  match a, b with
  | FFin n1 m1 e1, FFin n2 m2 e2 => Bool.eqb n1 n2 && (m1 =? m2) && (e1 =? e2)%Z
  | FInf n1, FInf n2 => Bool.eqb n1 n2
  | FNaN, FNaN => true
  | _, _ => false
  end.

(** Structural identity of two values (type included), which is how the
    memoisation keys its arguments. *)
Fixpoint pyvalue_eqb (a b : pyvalue) : bool :=
  match a, b with
  | PyNone, PyNone => true
  | PyBool x, PyBool y => Bool.eqb x y
  | PyInt x, PyInt y => (x =? y)%Z
  | PyFloat x, PyFloat y => pyfloat_eqb x y
  | PyStr x, PyStr y => pystr_eqb x y
  | PyList x, PyList y =>
      (fix go (l1 l2 : list pyvalue) : bool :=
         match l1, l2 with
         | [], [] => true
         | u :: l1', v :: l2' => pyvalue_eqb u v && go l1' l2'
         | _, _ => false
         end) x y
  | PyDict x, PyDict y =>
      (fix go (l1 l2 : list (pystr * pyvalue)) : bool :=
         match l1, l2 with
         | [], [] => true
         | (k1, u) :: l1', (k2, v) :: l2' =>
             pystr_eqb k1 k2 && pyvalue_eqb u v && go l1' l2'
         | _, _ => false
         end) x y
  | _, _ => false
  end.

(** ** Exceptions and results *)

Inductive exn : Type :=
| KeyError (key : pyvalue)
| IndexError
| TypeError
| ValueError
| AttributeError
| OverflowError
| Timeout
| ConnectionError
| JSONDecodeError.

Inductive res (A : Type) : Type :=
| Ok (a : A)
| Err (e : exn).
Arguments Ok {A} a.
Arguments Err {A} e.

Definition rbind {A B} (r : res A) (k : A -> res B) : res B :=
  match r with
  | Ok a => k a
  | Err e => Err e
  end.

Declare Scope res_scope.
Delimit Scope res_scope with res.
Notation "x <- c ;; k" := (rbind c (fun x => k))
  (at level 61, c at next level, right associativity) : res_scope.

(** ** Truth value, membership and subscripting *)

Definition truthy (v : pyvalue) : bool :=
  match v with
  | PyNone => false
  | PyBool b => b
  | PyInt z => negb (z =? 0)%Z
  | PyFloat (FFin _ m _) => negb (m =? 0)
  | PyFloat _ => true
  | PyStr s => match s with [] => false | _ => true end
  | PyList l => match l with [] => false | _ => true end
  | PyDict d => match d with [] => false | _ => true end
  end.

Fixpoint dict_lookup {V} (k : pystr) (d : list (pystr * V)) : option V :=
  match d with
  | [] => None
  | (k', v) :: d' => if pystr_eqb k k' then Some v else dict_lookup k d'
  end.

(** [d[k] = v]: an existing key keeps its place and takes the new value, a
    new key goes last. *)
Fixpoint dict_set {V} (k : pystr) (v : V) (d : list (pystr * V)) : list (pystr * V) :=
  match d with
  | [] => [(k, v)]
  | (k', v') :: d' =>
      if pystr_eqb k k' then (k', v) :: d' else (k', v') :: dict_set k v d'
  end.

(** [k in v] for a string [k]. *)
Definition contains_str (k : pystr) (v : pyvalue) : res bool :=
  match v with
  | PyDict d => Ok (match dict_lookup k d with Some _ => true | None => false end)
  | PyList l => Ok (existsb (pyvalue_eqb (PyStr k)) l)
  | PyStr s => Ok (substring_of k s)
  | _ => Err TypeError
  end.

(** [v[k]] for a string [k]. *)
Definition getitem_str (v : pyvalue) (k : pystr) : res pyvalue :=
  match v with
  | PyDict d =>
      match dict_lookup k d with
      | Some x => Ok x
      | None => Err (KeyError (PyStr k))
      end
  | _ => Err TypeError
  end.

(** [v[0]]. *)
Definition getitem_0 (v : pyvalue) : res pyvalue :=
  match v with
  | PyList (x :: _) => Ok x
  | PyList [] => Err IndexError
  | PyStr (c :: _) => Ok (PyStr [c])
  | PyStr [] => Err IndexError
  | PyDict _ => Err (KeyError (PyInt 0))
  | _ => Err TypeError
  end.

(** [v.get(k)] for a string [k]: only a dict has the method. *)
Definition get_str (v : pyvalue) (k : pystr) : res pyvalue :=
  match v with
  | PyDict d =>
      match dict_lookup k d with
      | Some x => Ok x
      | None => Ok PyNone
      end
  | _ => Err AttributeError
  end.

Definition dict_items (v : pyvalue) : res (list (pystr * pyvalue)) :=
  match v with
  | PyDict d => Ok d
  | _ => Err AttributeError
  end.

(** ** Numbers as text *)

Fixpoint uint_codes (u : Decimal.uint) : pystr :=
  match u with
  | Decimal.Nil => []
  | Decimal.D0 r => 48 :: uint_codes r
  | Decimal.D1 r => 49 :: uint_codes r
  | Decimal.D2 r => 50 :: uint_codes r
  | Decimal.D3 r => 51 :: uint_codes r
  | Decimal.D4 r => 52 :: uint_codes r
  | Decimal.D5 r => 53 :: uint_codes r
  | Decimal.D6 r => 54 :: uint_codes r
  | Decimal.D7 r => 55 :: uint_codes r
  | Decimal.D8 r => 56 :: uint_codes r
  | Decimal.D9 r => 57 :: uint_codes r
  end.

Definition decimal (n : N) : pystr := uint_codes (N.to_uint n).

(** The last [p] decimal digits of [n], zero padded. *)
Fixpoint pad_digits (p : nat) (n : N) : pystr :=
  match p with
  | O => []
  | S p' => pad_digits p' (n / 10) ++ [48 + n mod 10]
  end.

Definition is_digit (c : N) : Prop := 48 <= c <= 57.

(** [num / den] rounded to the nearest integer, a tie to the even one. *)
Definition round_half_even (num den : N) : N :=
  let q := num / den in
  let r := num mod den in
  if 2 * r <? den then q
  else if den <? 2 * r then q + 1
  else if N.even q then q else q + 1.

(** The text of [scaled / 10^p] with [p] digits after the point. *)
Definition fixed_point (p : nat) (neg : bool) (scaled : N) : pystr :=
  (if neg then [45] else [])
    ++ decimal (scaled / 10 ^ N.of_nat p)
    ++ match p with
       | O => []
       | S _ => 46 :: pad_digits p (scaled mod 10 ^ N.of_nat p)
       end.

(** [format(f, ".pf")] for a float: the exact binary value, correctly
    rounded to [p] places; the sign is kept even when the digits are all
    zero. *)
Definition format_float (p : nat) (f : pyfloat) : pystr :=
  match f with
  | FFin neg m e =>
      let scaled :=
        if (0 <=? e)%Z then m * 2 ^ Z.to_N e * 10 ^ N.of_nat p
        else round_half_even (m * 10 ^ N.of_nat p) (2 ^ Z.to_N (- e)) in
      fixed_point p neg scaled
  | FInf neg => if neg then py "-inf" else py "inf"
  | FNaN => py "nan"
  end.

(** [float(z)] for an int: the nearest double, or OverflowError. *)
Definition float_of_int (z : Z) : res pyfloat :=
  let a := Z.abs_N z in
  let neg := (z <? 0)%Z in
  if N.size a <=? 53 then Ok (FFin neg a 0)
  else
    let sh := N.size a - 53 in
    let m := round_half_even a (2 ^ sh) in
    if 2 ^ 1024 <=? m * 2 ^ sh then Err OverflowError
    else Ok (FFin neg m (Z.of_N sh)).

(** [f"{v:.pf}"]: floats, and ints (bools among them) through [float];
    a str has no [f] format, and the other types accept no format. *)
Definition format_f (p : nat) (v : pyvalue) : res pystr :=
  match v with
  | PyFloat f => Ok (format_float p f)
  | PyInt z => (f <- float_of_int z ;; Ok (format_float p f))%res
  | PyBool b => Ok (format_float p (FFin false (if b then 1 else 0) 0))
  | PyStr _ => Err ValueError
  | PyNone | PyList _ | PyDict _ => Err TypeError
  end.

(** ** Advisory tables (app.py, lines 28-43) *)

Definition AQI_TEXT : list (Z * pystr) :=
  [ (1%Z, py "Good");
    (2%Z, py "Fair");
    (3%Z, py "Moderate");
    (4%Z, py "Poor");
    (5%Z, py "Very Poor") ].

Definition HEALTH_ADVICE : list (Z * pystr) :=
  [ (1%Z, py "✅ Air quality is good. Great for outdoor activities.");
    (2%Z, py "🙂 Acceptable air quality. Minor precautions for sensitive groups.");
    (3%Z, py "⚠️ Moderate pollution. Consider reducing outdoor exertion.");
    (4%Z, py "🚫 Unhealthy. Avoid outdoor activities and wear a mask.");
    (5%Z, py "❗ Very unhealthy. Stay indoors with air purification if possible.") ].

(** The int a value is equal to as a dict key, if any: [True == 1] and
    [2.0 == 2] with equal hashes; a list or a dict is unhashable. *)
Definition int_key (v : pyvalue) : res (option Z) :=
  match v with
  | PyInt z => Ok (Some z)
  | PyBool b => Ok (Some (if b then 1 else 0)%Z)
  | PyFloat (FFin neg m e) =>
      let sgn (a : N) := if neg then (- Z.of_N a)%Z else Z.of_N a in
      if (0 <=? e)%Z then Ok (Some (sgn (m * 2 ^ Z.to_N e)))
      else if m mod 2 ^ Z.to_N (- e) =? 0 then Ok (Some (sgn (m / 2 ^ Z.to_N (- e))))
      else Ok None
  | PyFloat _ => Ok None
  | PyNone | PyStr _ => Ok None
  | PyList _ | PyDict _ => Err TypeError
  end.

Fixpoint assoc_int (k : Z) (t : list (Z * pystr)) : option pystr :=
  match t with
  | [] => None
  | (k', s) :: t' => if (k =? k')%Z then Some s else assoc_int k t'
  end.

(** [table.get(key, default)] on a table keyed by ints. *)
Definition dict_get (t : list (Z * pystr)) (key : pyvalue) (default : pystr) : res pystr :=
  (k <- int_key key ;;
   Ok match k with
      | Some z => match assoc_int z t with Some s => s | None => default end
      | None => default
      end)%res.

Definition labelFor (aqi : pyvalue) : res pystr := dict_get AQI_TEXT aqi (py "Unknown").
Definition adviceFor (aqi : pyvalue) : res pystr :=
  dict_get HEALTH_ADVICE aqi (py "No advice available.").

(** ** The world of one run: what was shown, what was requested, the caches *)

(** The figure [plot_components] builds, as the calls made on the plotting
    library describe it. *)
Record figure : Type := mkFigure {
  fig_x : list pystr;          (* bar labels, in order *)
  fig_height : list pyvalue;   (* bar heights, in order *)
  fig_color : pystr;
  fig_title : pystr;
  fig_ylabel : pystr;
  fig_grid_axis : pystr
}.

Definition fig_bars (f : figure) : list (pystr * pyvalue) :=
  combine (fig_x f) (fig_height f).

Inductive ui_event : Type :=
| UiTitle (s : pystr)
| UiCaption (s : pystr)
| UiError (s : pystr)
| UiWarning (s : pystr)
| UiInfo (s : pystr)
| UiSpinner (s : pystr)
| UiSubheader (s : pystr)
| UiWrite (s : pystr)
| UiMetric (label value delta : pystr)
| UiTable (rows : list (pystr * pystr))
| UiPyplot (fig : figure)
| UiMarkdown (s : pystr).

(** What [fetch_air_quality] returns when it returns a reading. *)
Record reading : Type := mkReading {
  r_aqi : pyvalue;
  r_components : pyvalue;
  r_dt : pyvalue
}.

Definition coords := (pyvalue * pyvalue)%type.

(** A memoised result: the value and the time it was stored at. *)
Definition entry (V : Type) := (V * Z)%type.

Record world : Type := mkWorld {
  ui : list ui_event;                              (* shown so far, oldest first *)
  calls : list pystr;                              (* URLs requested, oldest first *)
  clock : Z;                                       (* the time, in seconds *)
  geo_cache : list (pystr * entry (option coords));
  aq_cache : list (coords * entry (option reading))
}.

(** A process that has just started, at time [t]. *)
Definition fresh (t : Z) : world := mkWorld [] [] t [] [].


(** How a piece of the script ends: normally, by [st.stop()], or by an
    exception nobody catches. *)
Inductive outcome (A : Type) : Type :=
| Ret (a : A)
| Stop
| Raise (e : exn).
Arguments Ret {A} a.
Arguments Stop {A}.
Arguments Raise {A} e.

Definition M (A : Type) : Type := world -> outcome A * world.

Definition ret {A} (a : A) : M A := fun w => (Ret a, w).

Definition bind {A B} (c : M A) (k : A -> M B) : M B :=
  fun w =>
    match c w with
    | (Ret a, w') => k a w'
    | (Stop, w') => (Stop, w')
    | (Raise e, w') => (Raise e, w')
    end.

Definition lift {A} (r : res A) : M A :=
  fun w => match r with Ok a => (Ret a, w) | Err e => (Raise e, w) end.

Declare Scope M_scope.
Delimit Scope M_scope with M.
Notation "x <- c ;; k" := (bind c (fun x => k))
  (at level 61, c at next level, right associativity) : M_scope.
Notation "c ;; k" := (bind c (fun _ => k))
  (at level 61, right associativity) : M_scope.

(** The world after the elements [es] were shown. *)
Definition shown (es : list ui_event) (w : world) : world :=
  mkWorld (ui w ++ es) (calls w) (clock w) (geo_cache w) (aq_cache w).

(** The world after a request of [url] that took [dt] seconds. *)
Definition requested (url : pystr) (dt : Z) (w : world) : world :=
  mkWorld (ui w) (calls w ++ [url]) (clock w + dt) (geo_cache w) (aq_cache w).

Definition show (e : ui_event) : M unit := fun w => (Ret tt, shown [e] w).

Definition st_stop {A} : M A := fun w => (Stop, w).

(** The answer to one outbound request: the decoded JSON body, or the
    exception [requests.get(...).json()] raises. *)
Inductive response : Type :=
| Body (v : pyvalue)
| Fails (e : exn).

Fixpoint coords_lookup {V} (k : coords) (c : list (coords * V)) : option V :=
  match c with
  | [] => None
  | ((la, lo), v) :: c' =>
      if pyvalue_eqb (fst k) la && pyvalue_eqb (snd k) lo then Some v
      else coords_lookup k c'
  end.

Fixpoint coords_store {V} (k : coords) (v : V) (c : list (coords * V)) : list (coords * V) :=
  match c with
  | [] => [(k, v)]
  | ((la, lo), v') :: c' =>
      if pyvalue_eqb (fst k) la && pyvalue_eqb (snd k) lo then ((la, lo), v) :: c'
      else ((la, lo), v') :: coords_store k v c'
  end.

(** An entry stored at [t] serves calls made before [t + ttl]. *)
Definition live {V} (ttl now : Z) (e : option (entry V)) : option V :=
  match e with
  | Some (v, t) => if (now <? t + ttl)%Z then Some v else None
  | None => None
  end.

Definition geocode_ttl : Z := 600.
Definition air_quality_ttl : Z := 300.

(** The texts the handler shows (lines 103-127). *)
Definition msg_no_key : pystr :=
  py "❌ API key not found. Please set OPENWEATHER_API_KEY in .streamlit/secrets.toml".
Definition msg_no_city : pystr :=
  py "⚠️ Please enter a city name.".
Definition msg_city_not_found : pystr :=
  py "❌ City not found. Try again with country code (e.g., Paris,FR).".
Definition msg_no_air_quality : pystr :=
  py "❌ Failed to retrieve air quality data.".
Definition msg_looking_up : pystr :=
  py "🔎 Looking up city coordinates...".
Definition msg_fetching : pystr :=
  py "🌫️ Fetching air quality data...".

(** What every run shows before and after the handler (lines 21-22 and
    148-149). *)
Definition page_header : list ui_event :=
  [UiTitle (py "🌫️ Air Quality Checker");
   UiCaption (py "Enter a city name (e.g., Taipei or Paris,FR) to check real-time air quality.")].

Definition page_footer : list ui_event :=
  [UiMarkdown (py "---");
   UiMarkdown (py "📊 **Data Source:** [OpenWeatherMap Air Pollution API](https://openweathermap.org/api/air-pollution)")].

(** [f"📍 Coordinates: ({lat:.5f}, {lon:.5f})"], the two fields formatted. *)
Definition coords_text (slat slon : pystr) : pystr :=
  py "📍 Coordinates: (" ++ slat ++ py ", " ++ slon ++ py ")".

(** ** The program *)

Section App.

(** The credential read from the secrets at start-up; empty when none is
    configured. *)
Variable API_KEY : pystr.

(** The network: the answer to the [n]-th outbound request of the process
    and the seconds it took. *)
Variable net : nat -> pystr -> response * Z.

(** The interpreter's [str()], which an f-string field without a format
    applies, and its uppercase table outside ASCII. *)
Variable py_str : pyvalue -> pystr.
Variable uni_upper : N -> pystr.

(** The plotting library: what the calls of lines 78-83 ([plt.figure],
    [plt.bar(keys, values)] and the calls after it) do with the labels and
    heights they are given: they return, or one of them raises. *)
Variable plt_bar : list pystr -> list pyvalue -> res unit.

(** [requests.get(url, timeout=10).json()] *)
Definition requests_get_json (url : pystr) : M pyvalue :=
  fun w =>
    let (r, dt) := net (List.length (calls w)) url in
    match r with
    | Body v => (Ret v, requested url dt w)
    | Fails e => (Raise e, requested url dt w)
    end.

Definition geocode_url (city_name : pystr) : pystr :=
  py "http://api.openweathermap.org/geo/1.0/direct?q=" ++ city_name
    ++ py "&limit=1&appid=" ++ API_KEY.

Definition air_quality_url (lat lon : pyvalue) : pystr :=
  py "http://api.openweathermap.org/data/2.5/air_pollution?lat=" ++ py_str lat
    ++ py "&lon=" ++ py_str lon ++ py "&appid=" ++ API_KEY.

(** The body of [geocode_city] (lines 50-54). *)
Definition geocode_city_body (city_name : pystr) : M (option coords) :=
  (res <- requests_get_json (geocode_url city_name) ;;
   if negb (truthy res) then ret None
   else
     la <- lift (c <- getitem_0 res ;; getitem_str c (py "lat"))%res ;;
     lo <- lift (c <- getitem_0 res ;; getitem_str c (py "lon"))%res ;;
     ret (Some (la, lo)))%M.

(** The body of [fetch_air_quality] (lines 61-70). *)
Definition fetch_air_quality_body (lat lon : pyvalue) : M (option reading) :=
  (res <- requests_get_json (air_quality_url lat lon) ;;
   has <- lift (contains_str (py "list") res) ;;
   if negb has then ret None
   else
     l <- lift (getitem_str res (py "list")) ;;
     if negb (truthy l) then ret None
     else
       item <- lift (l' <- getitem_str res (py "list") ;; getitem_0 l')%res ;;
       aqi <- lift (m <- getitem_str item (py "main") ;; getitem_str m (py "aqi"))%res ;;
       components <- lift (getitem_str item (py "components")) ;;
       dt <- lift (get_str item (py "dt")) ;;
       ret (Some (mkReading aqi components dt)))%M.

(** [@st.cache_data(ttl=600)]: a live entry for the argument is returned
    without running the body; otherwise the body runs, and what it returns
    is stored with the time read after it (an exception stores nothing). *)
Definition geocode_city (city_name : pystr) : M (option coords) :=
  fun w =>
    match live geocode_ttl (clock w) (dict_lookup city_name (geo_cache w)) with
    | Some v => (Ret v, w)
    | None =>
        match geocode_city_body city_name w with
        | (Ret v, w') =>
            (Ret v, mkWorld (ui w') (calls w') (clock w')
                            (dict_set city_name (v, clock w') (geo_cache w'))
                            (aq_cache w'))
        | other => other
        end
    end.

(** [@st.cache_data(ttl=300)], likewise, keyed by both arguments. *)
Definition fetch_air_quality (lat lon : pyvalue) : M (option reading) :=
  fun w =>
    match live air_quality_ttl (clock w) (coords_lookup (lat, lon) (aq_cache w)) with
    | Some v => (Ret v, w)
    | None =>
        match fetch_air_quality_body lat lon w with
        | (Ret v, w') =>
            (Ret v, mkWorld (ui w') (calls w') (clock w') (geo_cache w')
                            (coords_store (lat, lon) (v, clock w') (aq_cache w')))
        | other => other
        end
    end.

(** [plot_components] (lines 75-84). *)
Definition plot_components (components : pyvalue) : res figure :=
  (ks <- dict_items components ;;
   vs <- dict_items components ;;
   drawn <- plt_bar (map (fun kv => upper uni_upper (fst kv)) ks) (map snd vs) ;;
   Ok (mkFigure (map (fun kv => upper uni_upper (fst kv)) ks)
                (map snd vs)
                (py "skyblue")
                (py "Air Pollutant Concentrations (μg/m³)")
                (py "Concentration (μg/m³)")
                (py "y")))%res.

(** The dict comprehension of line 141, entry by entry. *)
Fixpoint table_rows (items : list (pystr * pyvalue)) (acc : list (pystr * pystr))
  : res (list (pystr * pystr)) :=
  match items with
  | [] => Ok acc
  | (k, v) :: rest =>
      (s <- format_f 2 v ;; table_rows rest (dict_set (upper uni_upper k) s acc))%res
  end.

Definition table_data (components : pyvalue) : res (list (pystr * pystr)) :=
  (items <- dict_items components ;; table_rows items [])%res.

(** Step 3 (lines 131-146). *)
Definition display (aq : reading) : M unit :=
  (let aqi := r_aqi aq in
   let components := r_components aq in
   show (UiSubheader (py "Air Quality Index (AQI)")) ;;
   show (UiWrite (py "AQI scale ranges from 1 (Good) to 5 (Very Poor).")) ;;
   label <- lift (labelFor aqi) ;;
   show (UiMetric (py "AQI Value") (py_str aqi) label) ;;
   advice <- lift (adviceFor aqi) ;;
   show (UiWrite advice) ;;
   show (UiSubheader (py "Pollutant Concentrations (μg/m³)")) ;;
   rows <- lift (table_data components) ;;
   show (UiTable rows) ;;
   fig <- lift (plot_components components) ;;
   show (UiPyplot fig))%M.

(** Lines 126-146: what follows the air-quality call. *)
Definition after_fetch (aq : option reading) : M unit :=
  (match aq with
   | None => show (UiError msg_no_air_quality) ;; st_stop
   | Some r => display r
   end)%M.

(** Lines 115-146: what follows the geocoding call. *)
Definition after_geocode (coords : option coords) : M unit :=
  (match coords with
   | None =>
       show (UiError msg_city_not_found) ;;
       st_stop
   | Some (lat, lon) =>
       slat <- lift (format_f 5 lat) ;;
       slon <- lift (format_f 5 lon) ;;
       show (UiInfo (coords_text slat slon)) ;;
       show (UiSpinner msg_fetching) ;;
       aq <- fetch_air_quality lat lon ;;
       after_fetch aq
   end)%M.

(** The handler of a submission (lines 101-146). *)
Definition on_submit (city_input : pystr) : M unit :=
  ((match API_KEY with
    | [] =>
        show (UiError msg_no_key) ;;
        st_stop
    | _ => ret tt
    end) ;;
   (match strip city_input with
    | [] => show (UiWarning msg_no_city) ;; st_stop
    | _ => ret tt
    end) ;;
   show (UiSpinner msg_looking_up) ;;
   coords <- geocode_city (strip city_input) ;;
   after_geocode coords)%M.

(** One run of the script: the page, the handler when the form was
    submitted, the footer. *)
Definition app (submitted : bool) (city_input : pystr) : M unit :=
  (show (UiTitle (py "🌫️ Air Quality Checker")) ;;
   show (UiCaption (py "Enter a city name (e.g., Taipei or Paris,FR) to check real-time air quality.")) ;;
   (if submitted then on_submit city_input else ret tt) ;;
   show (UiMarkdown (py "---")) ;;
   show (UiMarkdown (py "📊 **Data Source:** [OpenWeatherMap Air Pollution API](https://openweathermap.org/api/air-pollution)")))%M.

End App.

(** ** A concrete interpreter and network, for running the program *)

(** [str()] on None, bools, ints and strings.  The text of a float, a list
    or a dict is [repr]'s, which is not reproduced: the runs below pass
    none of them to [str()]. *)
Definition str_scalar (v : pyvalue) : pystr :=
  match v with
  | PyNone => py "None"
  | PyBool true => py "True"
  | PyBool false => py "False"
  | PyInt z => (if (z <? 0)%Z then [45] else []) ++ decimal (Z.abs_N z)
  | PyStr s => s
  | PyFloat _ | PyList _ | PyDict _ => []
  end.

(** No code point outside ASCII changes: right for the caseless ones. *)
Definition caseless (c : N) : pystr := [c].

(** A plotting library for the runs below, relied on only at the heights
    they use: a None height raises TypeError and an int of 2^63 or more
    raises OverflowError, as [plt.bar] does; the float heights of the runs
    are drawn. *)
Fixpoint plt_stand_in (labels : list pystr) (heights : list pyvalue) : res unit :=
  match heights with
  | [] => Ok tt
  | PyNone :: _ => Err TypeError
  | PyInt z :: rest =>
      if (2 ^ 63 <=? z)%Z then Err OverflowError else plt_stand_in labels rest
  | _ :: rest => plt_stand_in labels rest
  end.

(** A network that answers a geocoding request with [geo] and any other
    request with [air], each in one second. *)
Definition net_of (geo air : response) : nat -> pystr -> response * Z :=
  fun _ url =>
    if starts_with (py "http://api.openweathermap.org/geo/") url then (geo, 1%Z)
    else (air, 1%Z).

(** 12.3, 15.2 and 40.1 as doubles. *)
Definition f_12_3 : pyvalue := PyFloat (FFin false 3462142213541069 (-48)).
Definition f_15_2 : pyvalue := PyFloat (FFin false 4278419646001971 (-48)).
Definition f_40_1 : pyvalue := PyFloat (FFin false 5643573283048653 (-47)).

Definition taipei : response :=
  Body (PyList [PyDict [(py "name", PyStr (py "Taipei"));
                        (py "lat", PyInt 25); (py "lon", PyInt 121)]]).

Definition taipei_air : response :=
  Body (PyDict [(py "list",
    PyList [PyDict [(py "main", PyDict [(py "aqi", PyInt 2)]);
                    (py "components", PyDict [(py "pm2_5", f_15_2); (py "o3", f_40_1)]);
                    (py "dt", PyInt 1755945555)]])]).

Definition taipei_request : pystr :=
  py "http://api.openweathermap.org/geo/1.0/direct?q=Taipei&limit=1&appid=k".

(** A candidate without coordinates, no candidate at all, and a reading
    list whose first entry is empty. *)
Definition paris_without_coords : response :=
  Body (PyList [PyDict [(py "name", PyStr (py "Paris")); (py "country", PyStr (py "FR"))]]).

Definition no_candidates : response := Body (PyList []).

Definition no_readings : response := Body (PyDict [(py "list", PyList [])]).

Definition empty_entry : response := Body (PyDict [(py "list", PyList [PyDict []])]).

(** 1.0 under "no2" and 2.0 under "NO2": two keys with one uppercase text. *)
Definition no2_twice : pyvalue :=
  PyDict [(py "no2", PyFloat (FFin false 1 0)); (py "NO2", PyFloat (FFin false 2 0))].

(** ** Reading the table of pollutants *)

(** The value of the last entry whose uppercased key is [key]. *)
Fixpoint last_upper (uni_upper : N -> pystr) (key : pystr) (items : list (pystr * pyvalue))
  : option pyvalue :=
  match items with
  | [] => None
  | (k, v) :: rest =>
      match last_upper uni_upper key rest with
      | Some x => Some x
      | None => if pystr_eqb key (upper uni_upper k) then Some v else None
      end
  end.

(** A number that is neither an infinity nor a NaN. *)
Definition finite_number (v : pyvalue) : bool :=
  match v with
  | PyFloat (FFin _ _ _) | PyInt _ | PyBool _ => true
  | _ => false
  end.

(** A text that ends in a point and exactly two digits, after an optional
    minus sign and digits only. *)
Definition two_places (s : pystr) : Prop :=
  exists sign ip d1 d2,
    s = sign ++ ip ++ [46; d1; d2]
    /\ (sign = [] \/ sign = [45])
    /\ Forall is_digit ip /\ ip <> []
    /\ is_digit d1 /\ is_digit d2.

(** ** The advisory table of the specification (section 4.3)

    The rows as the specification prints them, to compare the program's
    tables with. *)
Definition section_4_3 : list (Z * (pystr * pystr)) :=
  [ (1%Z, (py "Good", py "Air quality is good. Great for outdoor activities."));
    (2%Z, (py "Fair", py "Acceptable air quality. Minor precautions for sensitive groups."));
    (3%Z, (py "Moderate", py "Moderate pollution. Consider reducing outdoor exertion."));
    (4%Z, (py "Poor", py "Unhealthy. Avoid outdoor activities and wear a mask."));
    (5%Z, (py "Very Poor", py "Very unhealthy. Stay indoors with air purification if possible.")) ].

Fixpoint spec_row (k : Z) (t : list (Z * (pystr * pystr))) : option (pystr * pystr) :=
  match t with
  | [] => None
  | (k', r) :: t' => if (k =? k')%Z then Some r else spec_row k t'
  end.

(** The label and the advice of category [k] in that table. *)
Definition spec_label (k : Z) : pystr :=
  match spec_row k section_4_3 with Some (l, _) => l | None => [] end.

Definition spec_advice (k : Z) : pystr :=
  match spec_row k section_4_3 with Some (_, a) => a | None => [] end.

Definition in_1_5 (z : Z) : bool := ((1 <=? z) && (z <=? 5))%Z.

(** The pictograph the program puts before each advice text. *)
Definition advice_mark (k : Z) : pystr :=
  match k with
  | 1%Z => py "✅"
  | 2%Z => py "🙂"
  | 3%Z => py "⚠️"
  | 4%Z => py "🚫"
  | _ => py "❗"
  end.

(** ** Vocabulary for the further properties *)

(** A string that does not start with white space. *)
Definition head_clean (s : pystr) : Prop :=
  match s with
  | [] => True
  | c :: _ => isspace c = false
  end.

(** A piece of the script that, from every world, only shows elements:
    requests, clock and caches are left as they were. *)
Definition only_shows {A} (c : M A) : Prop :=
  forall w, exists es, snd (c w) = shown es w.

(** A piece of the script that, from every world, adds elements to what is
    shown and at most [n] requests, each satisfying [P], to what was
    requested. *)
Definition grows {A} (n : nat) (P : pystr -> Prop) (c : M A) : Prop :=
  forall w, exists es cs,
    ui (snd (c w)) = ui w ++ es
    /\ calls (snd (c w)) = calls w ++ cs
    /\ (List.length cs <= n)%nat
    /\ Forall P cs.

(** A text with [p] digits after the point, after an optional minus sign
    and digits only. *)
Definition decimal_places (p : nat) (s : pystr) : Prop :=
  exists sign ip frac,
    s = sign ++ ip ++ 46 :: frac
    /\ (sign = [] \/ sign = [45])
    /\ Forall is_digit ip /\ ip <> []
    /\ Forall is_digit frac /\ List.length frac = p.

(** The requests a submission of [city] may make: the geocoding request for
    the trimmed input, and an air-quality request. *)
Definition request_of (API_KEY : pystr) (py_str : pyvalue -> pystr) (city u : pystr) : Prop :=
  u = geocode_url API_KEY (strip city)
  \/ exists lat lon, u = air_quality_url API_KEY py_str lat lon.

(** What step 3 shows for a reading: the category with its label and
    advice, the table and the chart. *)
Definition reading_view (value label advice : pystr) (rows : list (pystr * pystr))
           (fig : figure) : list ui_event :=
  [UiSubheader (py "Air Quality Index (AQI)");
   UiWrite (py "AQI scale ranges from 1 (Good) to 5 (Very Poor).");
   UiMetric (py "AQI Value") value label;
   UiWrite advice;
   UiSubheader (py "Pollutant Concentrations (μg/m³)");
   UiTable rows;
   UiPyplot fig].

(** * Properties *)

(** ** Strings and dicts *)

Lemma pystr_eqb_refl (a : pystr) : pystr_eqb a a = true.
Proof.
  induction a as [|x a IH]; simpl; [reflexivity|].
  now rewrite N.eqb_refl, IH.
Qed.

Lemma pystr_eqb_eq (a b : pystr) : pystr_eqb a b = true <-> a = b.
Proof.
  split; [|intros ->; apply pystr_eqb_refl].
  revert b; induction a as [|x a IH]; intros [|y b]; simpl; try discriminate; auto.
  rewrite andb_true_iff, N.eqb_eq. intros [-> H]. now rewrite (IH _ H).
Qed.

Lemma pystr_eqb_neq (a b : pystr) : a <> b -> pystr_eqb a b = false.
Proof.
  intros H. destruct (pystr_eqb a b) eqn:E; [|reflexivity].
  now apply pystr_eqb_eq in E.
Qed.

Lemma pyfloat_eqb_refl (f : pyfloat) : pyfloat_eqb f f = true.
Proof.
  destruct f as [n m e|n|]; simpl; [|apply eqb_reflx|reflexivity].
  now rewrite eqb_reflx, N.eqb_refl, Z.eqb_refl.
Qed.

Lemma pyvalue_eqb_refl : forall v : pyvalue, pyvalue_eqb v v = true.
Proof.
  fix IH 1. intros [ |b|z|f|s|l|d]; simpl.
  - reflexivity.
  - apply eqb_reflx.
  - apply Z.eqb_refl.
  - apply pyfloat_eqb_refl.
  - apply pystr_eqb_refl.
  - induction l as [|x l IHl]; [reflexivity|]. now rewrite IH, IHl.
  - induction d as [|[k x] d IHd]; [reflexivity|].
    now rewrite pystr_eqb_refl, IH, IHd.
Qed.

Section Dict.
Context {V : Type}.

Lemma dict_lookup_set_same (k : pystr) (v : V) d :
  dict_lookup k (dict_set k v d) = Some v.
Proof.
  induction d as [|[k' v'] d IH]; simpl.
  - now rewrite pystr_eqb_refl.
  - destruct (pystr_eqb k k') eqn:E; simpl; rewrite E; auto.
Qed.

Lemma dict_lookup_set_other (k k' : pystr) (v : V) d :
  k' <> k -> dict_lookup k' (dict_set k v d) = dict_lookup k' d.
Proof.
  intros Hne. induction d as [|[k0 v0] d IH]; simpl.
  - now rewrite (pystr_eqb_neq k' k).
  - destruct (pystr_eqb k k0) eqn:E; simpl.
    + apply pystr_eqb_eq in E; subst k0. now rewrite (pystr_eqb_neq k' k).
    + now rewrite IH.
Qed.



Lemma dict_lookup_None (k : pystr) (d : list (pystr * V)) :
  dict_lookup k d = None <-> ~ In k (map fst d).
Proof.
  induction d as [|[k0 v0] d IH]; simpl; [intuition|].
  destruct (pystr_eqb k k0) eqn:E.
  - apply pystr_eqb_eq in E; subst. split; [discriminate|intuition].
  - rewrite IH. split; [|intuition].
    intros H [->|Hin]; [|contradiction]. now rewrite pystr_eqb_refl in E.
Qed.
End Dict.

Lemma coords_lookup_store_same {V} (k : coords) (v : V) c :
  coords_lookup k (coords_store k v c) = Some v.
Proof.
  destruct k as [la lo].
  induction c as [|[[la' lo'] v'] c IH]; simpl.
  - now rewrite !pyvalue_eqb_refl.
  - destruct (pyvalue_eqb la la' && pyvalue_eqb lo lo') eqn:E; simpl; rewrite E; auto.
Qed.

(** ** Advisory tables *)

Lemma not_in_1_5 (z : Z) :
  z <> 1%Z -> z <> 2%Z -> z <> 3%Z -> z <> 4%Z -> z <> 5%Z -> in_1_5 z = false.
Proof.
  intros. unfold in_1_5.
  destruct (Z.leb_spec 1 z); destruct (Z.leb_spec z 5); simpl; auto; lia.
Qed.

Ltac by_category z :=
  destruct (Z.eq_dec z 1) as [->|?]; [vm_compute; reflexivity|];
  destruct (Z.eq_dec z 2) as [->|?]; [vm_compute; reflexivity|];
  destruct (Z.eq_dec z 3) as [->|?]; [vm_compute; reflexivity|];
  destruct (Z.eq_dec z 4) as [->|?]; [vm_compute; reflexivity|];
  destruct (Z.eq_dec z 5) as [->|?]; [vm_compute; reflexivity|].

Lemma assoc_int_outside (t : list (Z * pystr)) (z : Z) :
  (forall k s, In (k, s) t -> k <> z) -> assoc_int z t = None.
Proof.
  induction t as [|[k s] t IH]; simpl; intros H; [reflexivity|].
  destruct (Z.eqb_spec z k) as [->|_].
  - now elim (H k s (or_introl eq_refl)).
  - apply IH. intros k' s' Hin. apply (H k' s'). now right.
Qed.

Lemma label_of_int (z : Z) :
  labelFor (PyInt z) = Ok (if in_1_5 z then spec_label z else py "Unknown").
Proof.
  by_category z.
  rewrite not_in_1_5 by assumption.
  unfold labelFor, dict_get, int_key, rbind.
  rewrite assoc_int_outside; [reflexivity|].
  unfold AQI_TEXT; simpl. intros k s H.
  repeat (destruct H as [H|H]; [inversion H; subst; auto|]). destruct H.
Qed.

Lemma advice_of_int (z : Z) :
  adviceFor (PyInt z) =
  Ok (if in_1_5 z then advice_mark z ++ [32] ++ spec_advice z
      else py "No advice available.").
Proof.
  by_category z.
  rewrite not_in_1_5 by assumption.
  unfold adviceFor, dict_get, int_key, rbind.
  rewrite assoc_int_outside; [reflexivity|].
  unfold HEALTH_ADVICE; simpl. intros k s H.
  repeat (destruct H as [H|H]; [inversion H; subst; auto|]). destruct H.
Qed.

(** C1, as the program has it: for every int key the label lookup returns
    the label of the section 4.3 table when the key is one of 1..5 and
    "Unknown" otherwise; the advice lookup returns, for a key in 1..5, the
    table's advice text with the program's pictograph and a space before it,
    and "No advice available." otherwise; for an absent value (None) both
    return their fallback.  Neither lookup raises on an int or on None. *)
Theorem C1_advisory_lookups :
  (forall z : Z,
     labelFor (PyInt z) = Ok (if in_1_5 z then spec_label z else py "Unknown")
     /\ adviceFor (PyInt z) =
          Ok (if in_1_5 z then advice_mark z ++ [32] ++ spec_advice z
              else py "No advice available."))
  /\ labelFor PyNone = Ok (py "Unknown")
  /\ adviceFor PyNone = Ok (py "No advice available.").
Proof.
  split; [|split; reflexivity].
  intros z. split; [apply label_of_int | apply advice_of_int].
Qed.

(** C1 as stated fails on the advice: for category 2 the program's text is
    the table's text with a pictograph and a space in front, not the table's
    text itself. *)
Lemma C1_advice_is_not_the_table_text :
  adviceFor (PyInt 2)
    = Ok (py "🙂 Acceptable air quality. Minor precautions for sensitive groups.")
  /\ pystr_eqb (py "🙂 Acceptable air quality. Minor precautions for sensitive groups.")
               (spec_advice 2) = false
  /\ spec_advice 2 = py "Acceptable air quality. Minor precautions for sensitive groups.".
Proof. vm_compute. repeat split. Qed.

(** ** The chart *)

Lemma combine_map_map {A B C} (f : A -> B) (g : A -> C) (l : list A) :
  combine (map f l) (map g l) = map (fun x => (f x, g x)) l.
Proof. induction l as [|x l IH]; simpl; [reflexivity | now rewrite IH]. Qed.

(** [plot_components] on a mapping: the figure when the plotting calls
    return, their exception when one of them raises. *)
Lemma plot_components_dict uni_upper plt_bar (d : list (pystr * pyvalue)) :
  plot_components uni_upper plt_bar (PyDict d) =
  match plt_bar (map (fun kv => upper uni_upper (fst kv)) d) (map snd d) with
  | Ok _ =>
      Ok (mkFigure (map (fun kv => upper uni_upper (fst kv)) d) (map snd d)
                   (py "skyblue")
                   (py "Air Pollutant Concentrations (μg/m³)")
                   (py "Concentration (μg/m³)")
                   (py "y"))
  | Err e => Err e
  end.
Proof.
  unfold plot_components. cbn [dict_items rbind].
  now destruct (plt_bar _ _).
Qed.

(** The figure of a mapping, when there is one. *)
Lemma plot_components_drawn uni_upper plt_bar (d : list (pystr * pyvalue)) fig :
  plot_components uni_upper plt_bar (PyDict d) = Ok fig ->
  fig_x fig = map (fun kv => upper uni_upper (fst kv)) d
  /\ fig_bars fig = map (fun kv => (upper uni_upper (fst kv), snd kv)) d
  /\ List.length (fig_bars fig) = List.length d
  /\ fig_title fig = py "Air Pollutant Concentrations (μg/m³)"
  /\ fig_ylabel fig = py "Concentration (μg/m³)".
Proof.
  rewrite plot_components_dict. destruct (plt_bar _ _) as [u|e]; [|discriminate].
  intros H. inversion H; subst fig.
  unfold fig_bars; cbn [fig_x fig_height fig_title fig_ylabel].
  rewrite combine_map_map, length_map. repeat split.
Qed.




(** ** The geocoding client *)

Section Geocoding.
Variable API_KEY : pystr.
Variable net : nat -> pystr -> response * Z.

(** What the body does with each answer of the network. *)
Lemma geocode_city_body_fails city w e dt :
  net (List.length (calls w)) (geocode_url API_KEY city) = (Fails e, dt) ->
  geocode_city_body API_KEY net city w = (Raise e, requested (geocode_url API_KEY city) dt w).
Proof.
  intros H. unfold geocode_city_body, bind, requests_get_json.
  now rewrite H.
Qed.

Lemma geocode_city_body_falsy city w v dt :
  net (List.length (calls w)) (geocode_url API_KEY city) = (Body v, dt) ->
  truthy v = false ->
  geocode_city_body API_KEY net city w = (Ret None, requested (geocode_url API_KEY city) dt w).
Proof.
  intros H Hv. unfold geocode_city_body, bind, requests_get_json.
  now rewrite H, Hv.
Qed.

Lemma geocode_city_body_candidate city w c rest dt :
  net (List.length (calls w)) (geocode_url API_KEY city) = (Body (PyList (c :: rest)), dt) ->
  geocode_city_body API_KEY net city w =
  (match getitem_str c (py "lat"), getitem_str c (py "lon") with
   | Ok la, Ok lo => Ret (Some (la, lo))
   | Ok _, Err e => Raise e
   | Err e, _ => Raise e
   end, requested (geocode_url API_KEY city) dt w).
Proof.
  intros H. unfold geocode_city_body, bind, requests_get_json.
  rewrite H. cbn [truthy negb getitem_0 rbind lift].
  destruct (getitem_str c (py "lat")); [|reflexivity].
  destruct (getitem_str c (py "lon")); reflexivity.
Qed.

(** A call of the memoised function that finds no live entry runs the
    body, and stores what it returns. *)
Lemma geocode_city_miss city w :
  live geocode_ttl (clock w) (dict_lookup city (geo_cache w)) = None ->
  geocode_city API_KEY net city w =
  match geocode_city_body API_KEY net city w with
  | (Ret v, w') =>
      (Ret v, mkWorld (ui w') (calls w') (clock w')
                      (dict_set city (v, clock w') (geo_cache w')) (aq_cache w'))
  | other => other
  end.
Proof. intros H. unfold geocode_city. now rewrite H. Qed.

Lemma geocode_city_hit city w v :
  live geocode_ttl (clock w) (dict_lookup city (geo_cache w)) = Some v ->
  geocode_city API_KEY net city w = (Ret v, w).
Proof. intros H. unfold geocode_city. now rewrite H. Qed.

(** C10: when the answer is a list of candidates, [geocode_city] returns
    None exactly when the list is empty; when the list is not empty and its
    first candidate is an object without "lat", or with "lat" and without
    "lon", the subscript raises KeyError for that field, and the exception
    leaves the memoised function too. *)
Theorem C10_geocode_unguarded_fields city w l dt :
  net (List.length (calls w)) (geocode_url API_KEY city) = (Body (PyList l), dt) ->
  (fst (geocode_city_body API_KEY net city w) = Ret None <-> l = [])
  /\ (forall c rest,
         l = PyDict c :: rest ->
         (dict_lookup (py "lat") c = None ->
          fst (geocode_city_body API_KEY net city w)
            = Raise (KeyError (PyStr (py "lat"))))
         /\ (forall la,
                dict_lookup (py "lat") c = Some la ->
                dict_lookup (py "lon") c = None ->
                fst (geocode_city_body API_KEY net city w)
                  = Raise (KeyError (PyStr (py "lon"))))
         /\ (dict_lookup (py "lat") c = None \/ dict_lookup (py "lon") c = None ->
             live geocode_ttl (clock w) (dict_lookup city (geo_cache w)) = None ->
             exists k,
               fst (geocode_city API_KEY net city w) = Raise (KeyError (PyStr k)))).
Proof.
  intros H. split.
  - destruct l as [|c rest].
    + rewrite (geocode_city_body_falsy _ _ _ _ H eq_refl). now split.
    + rewrite (geocode_city_body_candidate _ _ _ _ _ H). cbn [fst].
      split; [|discriminate].
      destruct (getitem_str c (py "lat")); [|discriminate].
      destruct (getitem_str c (py "lon")); discriminate.
  - intros c rest ->.
    rewrite (geocode_city_body_candidate _ _ _ _ _ H). cbn [fst].
    unfold getitem_str. repeat split.
    + now intros ->.
    + now intros la -> ->.
    + intros Hk Hmiss. rewrite (geocode_city_miss _ _ Hmiss).
      rewrite (geocode_city_body_candidate _ _ _ _ _ H). unfold getitem_str.
      destruct (dict_lookup (py "lat") c) as [la|]; [|now eexists].
      destruct (dict_lookup (py "lon") c) as [lo|]; [|now eexists].
      now destruct Hk.
Qed.
End Geocoding.

(** C10 at an answer whose only candidate carries no coordinates. *)
Lemma C10_witness :
  net_of paris_without_coords taipei_air
         (List.length (calls (fresh 0))) (geocode_url (py "k") (py "Paris,FR"))
    = (paris_without_coords, 1%Z)
  /\ fst (geocode_city_body (py "k") (net_of paris_without_coords taipei_air)
                            (py "Paris,FR") (fresh 0))
     = Raise (KeyError (PyStr (py "lat"))).
Proof.
  split; [vm_compute; reflexivity|].
  refine (proj1 (proj2 (C10_geocode_unguarded_fields
                          (py "k") (net_of paris_without_coords taipei_air)
                          (py "Paris,FR") (fresh 0) _ 1%Z _) _ _ eq_refl) _);
    vm_compute; reflexivity.
Defined.

(** ** The handler *)

Lemma shown_shown es1 es2 w : shown es2 (shown es1 w) = shown (es1 ++ es2) w.
Proof. unfold shown; simpl. now rewrite app_assoc. Qed.

Section Handler.
Variable API_KEY : pystr.
Variable net : nat -> pystr -> response * Z.
Variable py_str : pyvalue -> pystr.
Variable uni_upper : N -> pystr.
Variable plt_bar : list pystr -> list pyvalue -> res unit.

Local Abbreviation handler := (on_submit API_KEY net py_str uni_upper plt_bar).
Local Abbreviation page := (app API_KEY net py_str uni_upper plt_bar).

Lemma on_submit_no_key city w :
  API_KEY = [] -> handler city w = (Stop, shown [UiError msg_no_key] w).
Proof. intros E. unfold on_submit. now rewrite E. Qed.

Lemma on_submit_no_city city w :
  API_KEY <> [] -> strip city = [] ->
  handler city w = (Stop, shown [UiWarning msg_no_city] w).
Proof.
  intros Hk E. unfold on_submit. rewrite E.
  destruct API_KEY; [contradiction|reflexivity].
Qed.

Lemma on_submit_valid city w :
  API_KEY <> [] -> strip city <> [] ->
  handler city w =
  bind (geocode_city API_KEY net (strip city))
       (after_geocode API_KEY net py_str uni_upper plt_bar)
       (shown [UiSpinner msg_looking_up] w).
Proof.
  intros Hk Hc. unfold on_submit.
  destruct API_KEY; [contradiction|].
  destruct (strip city); [contradiction|reflexivity].
Qed.

(** The page around the handler: a handler that stops or raises ends the
    run there. *)
Lemma app_submitted city w :
  page true city w =
  match handler city (shown page_header w) with
  | (Ret _, w') => (Ret tt, shown page_footer w')
  | (Stop, w') => (Stop, w')
  | (Raise e, w') => (Raise e, w')
  end.
Proof.
  unfold app, bind, show. rewrite shown_shown. cbn [List.app].
  change [UiTitle _; UiCaption _] with page_header.
  destruct (on_submit _ _ _ _ _ city _) as [[[]| |e] w']; [|reflexivity|reflexivity].
  now rewrite shown_shown.
Qed.

(** C4: the credential is checked first and the trimmed input second.
    Without a credential the handler reports the missing key, whatever the
    input; with one and an input that is empty once trimmed it reports the
    missing city name.  Either way the run stops there, and no request was
    made: the requests and both caches are as they were. *)
Theorem C4_validation_precedes_network city w :
  (API_KEY = [] ->
   handler city w = (Stop, shown [UiError msg_no_key] w))
  /\ (API_KEY <> [] -> strip city = [] ->
      handler city w = (Stop, shown [UiWarning msg_no_city] w))
  /\ (API_KEY = [] \/ strip city = [] ->
      fst (page true city w) = Stop
      /\ calls (snd (page true city w)) = calls w
      /\ geo_cache (snd (page true city w)) = geo_cache w
      /\ aq_cache (snd (page true city w)) = aq_cache w).
Proof.
  split; [apply on_submit_no_key|]. split; [apply on_submit_no_city|].
  intros H. rewrite app_submitted.
  destruct API_KEY as [|c k] eqn:E.
  - rewrite <- E. rewrite on_submit_no_key by exact E. now repeat split.
  - destruct H as [H|H]; [discriminate|].
    rewrite <- E. rewrite on_submit_no_city; [now repeat split| |exact H].
    rewrite E; discriminate.
Qed.

(** C5, as the program has it: when the first candidate of the answer is
    an object with "lat" and "lon", [geocode_city] returns that pair; when
    the answer has no candidate it returns None.  When [geocode_city]
    returns None the handler reports that the city was not found and
    stops, and nothing is requested after the geocoding call. *)
Theorem C5_first_candidate_or_not_found city w :
  (forall c rest dt la lo,
      net (List.length (calls w)) (geocode_url API_KEY city)
        = (Body (PyList (PyDict c :: rest)), dt) ->
      dict_lookup (py "lat") c = Some la ->
      dict_lookup (py "lon") c = Some lo ->
      geocode_city_body API_KEY net city w
        = (Ret (Some (la, lo)), requested (geocode_url API_KEY city) dt w))
  /\ (forall dt,
         net (List.length (calls w)) (geocode_url API_KEY city) = (Body (PyList []), dt) ->
         geocode_city_body API_KEY net city w
           = (Ret None, requested (geocode_url API_KEY city) dt w))
  /\ (forall w1,
         API_KEY <> [] -> strip city <> [] ->
         geocode_city API_KEY net (strip city) (shown [UiSpinner msg_looking_up] w)
           = (Ret None, w1) ->
         handler city w = (Stop, shown [UiError msg_city_not_found] w1)
         /\ calls (snd (handler city w)) = calls w1
         /\ aq_cache (snd (handler city w)) = aq_cache w1).
Proof.
  split; [|split].
  - intros c rest dt la lo H Hla Hlo.
    rewrite (geocode_city_body_candidate _ _ _ _ _ _ _ H).
    unfold getitem_str. now rewrite Hla, Hlo.
  - intros dt H. exact (geocode_city_body_falsy _ _ _ _ _ _ H eq_refl).
  - intros w1 Hk Hc H. rewrite on_submit_valid by assumption.
    unfold bind. rewrite H. now repeat split.
Qed.
End Handler.

(** C4 without a credential, and with one and a blank input. *)
Lemma C4_witness :
  on_submit [] (net_of taipei taipei_air) str_scalar caseless plt_stand_in (py "Taipei") (fresh 0)
    = (Stop, shown [UiError msg_no_key] (fresh 0))
  /\ strip (py "  ") = []
  /\ on_submit (py "k") (net_of taipei taipei_air) str_scalar caseless plt_stand_in (py "  ") (fresh 0)
     = (Stop, shown [UiWarning msg_no_city] (fresh 0))
  /\ calls (snd (app (py "k") (net_of taipei taipei_air) str_scalar caseless plt_stand_in
                     true (py "  ") (fresh 0))) = [].
Proof.
  split; [|split; [vm_compute; reflexivity|split]].
  - exact (proj1 (C4_validation_precedes_network
                    [] (net_of taipei taipei_air) str_scalar caseless plt_stand_in
                    (py "Taipei") (fresh 0)) eq_refl).
  - refine (proj1 (proj2 (C4_validation_precedes_network
                            (py "k") (net_of taipei taipei_air) str_scalar caseless plt_stand_in
                            (py "  ") (fresh 0))) _ _);
      [vm_compute; discriminate | vm_compute; reflexivity].
  - refine (proj1 (proj2 (proj2 (proj2 (C4_validation_precedes_network
                            (py "k") (net_of taipei taipei_air) str_scalar caseless plt_stand_in
                            (py "  ") (fresh 0))) _))).
    right. vm_compute; reflexivity.
Defined.

(** C5 as stated fails on a candidate that carries no coordinates: the
    provider returned one candidate, and the call raises KeyError instead of
    returning a pair, in the memoised function and through the page. *)
Lemma C5_candidate_without_coordinates :
  fst (geocode_city (py "k") (net_of paris_without_coords taipei_air)
                    (py "Paris,FR") (fresh 0))
    = Raise (KeyError (PyStr (py "lat")))
  /\ fst (app (py "k") (net_of paris_without_coords taipei_air) str_scalar caseless plt_stand_in
              true (py "Paris,FR") (fresh 0))
     = Raise (KeyError (PyStr (py "lat"))).
Proof. vm_compute. split; reflexivity. Qed.

(** C5 at a candidate with coordinates, and at an answer without
    candidates. *)
Lemma C5_witness :
  geocode_city_body (py "k") (net_of taipei taipei_air) (py "Taipei") (fresh 0)
    = (Ret (Some (PyInt 25, PyInt 121)),
       requested (geocode_url (py "k") (py "Taipei")) 1 (fresh 0))
  /\ geocode_city_body (py "k") (net_of no_candidates taipei_air) (py "Qwxyzzy123") (fresh 0)
     = (Ret None, requested (geocode_url (py "k") (py "Qwxyzzy123")) 1 (fresh 0))
  /\ on_submit (py "k") (net_of no_candidates taipei_air) str_scalar caseless plt_stand_in
               (py "Qwxyzzy123") (fresh 0)
     = (Stop, shown [UiSpinner msg_looking_up; UiError msg_city_not_found]
                (mkWorld [] [geocode_url (py "k") (py "Qwxyzzy123")] 1
                         [(py "Qwxyzzy123", (None, 1%Z))] [])).
Proof.
  split; [|split].
  - refine (proj1 (C5_first_candidate_or_not_found
                     (py "k") (net_of taipei taipei_air) str_scalar caseless plt_stand_in
                     (py "Taipei") (fresh 0)) _ _ 1%Z _ _ _ _ _);
      vm_compute; reflexivity.
  - refine (proj1 (proj2 (C5_first_candidate_or_not_found
                     (py "k") (net_of no_candidates taipei_air) str_scalar caseless plt_stand_in
                     (py "Qwxyzzy123") (fresh 0))) 1%Z _).
    vm_compute; reflexivity.
  - refine (eq_trans (proj1 (proj2 (proj2 (C5_first_candidate_or_not_found
                     (py "k") (net_of no_candidates taipei_air) str_scalar caseless plt_stand_in
                     (py "Qwxyzzy123") (fresh 0)))
                     (mkWorld [UiSpinner msg_looking_up]
                              [geocode_url (py "k") (py "Qwxyzzy123")] 1
                              [(py "Qwxyzzy123", (None, 1%Z))] []) _ _ _)) _);
      [vm_compute; discriminate | vm_compute; discriminate
       | vm_compute; reflexivity | vm_compute; reflexivity].
Defined.

(** ** The air-quality client *)

Section AirQuality.
Variable API_KEY : pystr.
Variable net : nat -> pystr -> response * Z.
Variable py_str : pyvalue -> pystr.

Local Abbreviation url := (air_quality_url API_KEY py_str).
Local Abbreviation body := (fetch_air_quality_body API_KEY net py_str).

Lemma fetch_air_quality_body_fails lat lon w e dt :
  net (List.length (calls w)) (url lat lon) = (Fails e, dt) ->
  body lat lon w = (Raise e, requested (url lat lon) dt w).
Proof.
  intros H. unfold fetch_air_quality_body, bind, requests_get_json. now rewrite H.
Qed.

Lemma fetch_air_quality_body_no_list lat lon w d dt :
  net (List.length (calls w)) (url lat lon) = (Body (PyDict d), dt) ->
  dict_lookup (py "list") d = None ->
  body lat lon w = (Ret None, requested (url lat lon) dt w).
Proof.
  intros H Hl. unfold fetch_air_quality_body, bind, requests_get_json.
  rewrite H. unfold contains_str, lift. now rewrite Hl.
Qed.

Lemma fetch_air_quality_body_falsy_list lat lon w d l dt :
  net (List.length (calls w)) (url lat lon) = (Body (PyDict d), dt) ->
  dict_lookup (py "list") d = Some l ->
  truthy l = false ->
  body lat lon w = (Ret None, requested (url lat lon) dt w).
Proof.
  intros H Hl Ht. unfold fetch_air_quality_body, bind, requests_get_json.
  rewrite H. unfold contains_str, getitem_str, lift. now rewrite Hl, Ht.
Qed.

Lemma fetch_air_quality_body_entry lat lon w d item rest dt :
  net (List.length (calls w)) (url lat lon) = (Body (PyDict d), dt) ->
  dict_lookup (py "list") d = Some (PyList (item :: rest)) ->
  body lat lon w =
  (match (m <- getitem_str item (py "main") ;; getitem_str m (py "aqi"))%res,
         getitem_str item (py "components"),
         get_str item (py "dt") with
   | Ok aqi, Ok components, Ok t => Ret (Some (mkReading aqi components t))
   | Ok _, Ok _, Err e => Raise e
   | Ok _, Err e, _ => Raise e
   | Err e, _, _ => Raise e
   end, requested (url lat lon) dt w).
Proof.
  intros H Hl. unfold fetch_air_quality_body, bind, requests_get_json.
  rewrite H. unfold contains_str, lift. rewrite Hl.
  cbn [negb]. unfold getitem_str at 1 2. rewrite Hl.
  cbn [truthy negb rbind getitem_0].
  destruct (m <- getitem_str item (py "main") ;; getitem_str m (py "aqi"))%res;
    [|reflexivity].
  destruct (getitem_str item (py "components")); [|reflexivity].
  destruct (get_str item (py "dt")); reflexivity.
Qed.

Lemma fetch_air_quality_miss lat lon w :
  live air_quality_ttl (clock w) (coords_lookup (lat, lon) (aq_cache w)) = None ->
  fetch_air_quality API_KEY net py_str lat lon w =
  match body lat lon w with
  | (Ret v, w') =>
      (Ret v, mkWorld (ui w') (calls w') (clock w') (geo_cache w')
                      (coords_store (lat, lon) (v, clock w') (aq_cache w')))
  | other => other
  end.
Proof. intros H. unfold fetch_air_quality. now rewrite H. Qed.

Lemma fetch_air_quality_hit lat lon w v :
  live air_quality_ttl (clock w) (coords_lookup (lat, lon) (aq_cache w)) = Some v ->
  fetch_air_quality API_KEY net py_str lat lon w = (Ret v, w).
Proof. intros H. unfold fetch_air_quality. now rewrite H. Qed.
End AirQuality.

(** ** Failures during a submission *)

Section Submission.
Variable API_KEY : pystr.
Variable net : nat -> pystr -> response * Z.
Variable py_str : pyvalue -> pystr.
Variable uni_upper : N -> pystr.
Variable plt_bar : list pystr -> list pyvalue -> res unit.

Local Abbreviation handler := (on_submit API_KEY net py_str uni_upper plt_bar).
Local Abbreviation page := (app API_KEY net py_str uni_upper plt_bar).
Local Abbreviation geo_url := (geocode_url API_KEY).
Local Abbreviation air_url := (air_quality_url API_KEY py_str).

(** A handler that got coordinates it can format goes on to the
    air-quality call. *)
Lemma on_submit_coords city w lat lon w1 slat slon :
  API_KEY <> [] -> strip city <> [] ->
  geocode_city API_KEY net (strip city) (shown [UiSpinner msg_looking_up] w)
    = (Ret (Some (lat, lon)), w1) ->
  format_f 5 lat = Ok slat -> format_f 5 lon = Ok slon ->
  handler city w =
  bind (fetch_air_quality API_KEY net py_str lat lon)
       (after_fetch py_str uni_upper plt_bar)
       (shown [UiInfo (coords_text slat slon); UiSpinner msg_fetching] w1).
Proof.
  intros Hk Hc Hg Hla Hlo. rewrite on_submit_valid by assumption.
  unfold bind at 1. rewrite Hg. unfold after_geocode, bind, lift, show.
  rewrite Hla, Hlo. now rewrite shown_shown.
Qed.

(** C2, as the program has it: a timeout or transport failure is not
    turned into None by either client.  When the geocoding request fails
    with an exception, [geocode_city] raises it and the handler ends with
    it after the spinner text alone; when the air-quality request fails,
    [fetch_air_quality] raises it and the handler ends with it after the
    coordinates and the second spinner text.  No error text is shown for
    either, and the page passes on whatever the handler raises. *)
Theorem C2_transport_failure_is_not_caught city w :
  API_KEY <> [] -> strip city <> [] ->
  (forall e dt,
      live geocode_ttl (clock w) (dict_lookup (strip city) (geo_cache w)) = None ->
      net (List.length (calls w)) (geo_url (strip city)) = (Fails e, dt) ->
      let w' := requested (geo_url (strip city)) dt (shown [UiSpinner msg_looking_up] w) in
      geocode_city API_KEY net (strip city) (shown [UiSpinner msg_looking_up] w)
        = (Raise e, w')
      /\ handler city w = (Raise e, w'))
  /\ (forall lat lon w1 slat slon e dt,
         geocode_city API_KEY net (strip city) (shown [UiSpinner msg_looking_up] w)
           = (Ret (Some (lat, lon)), w1) ->
         format_f 5 lat = Ok slat -> format_f 5 lon = Ok slon ->
         live air_quality_ttl (clock w1) (coords_lookup (lat, lon) (aq_cache w1)) = None ->
         net (List.length (calls w1)) (air_url lat lon) = (Fails e, dt) ->
         let w2 := shown [UiInfo (coords_text slat slon); UiSpinner msg_fetching] w1 in
         fetch_air_quality API_KEY net py_str lat lon w2
           = (Raise e, requested (air_url lat lon) dt w2)
         /\ handler city w = (Raise e, requested (air_url lat lon) dt w2))
  /\ (forall w0 e w',
         handler city (shown page_header w0) = (Raise e, w') ->
         page true city w0 = (Raise e, w')).
Proof.
  intros Hk Hc. split; [|split].
  - intros e dt Hmiss Hnet w'.
    assert (Hg : geocode_city API_KEY net (strip city)
                   (shown [UiSpinner msg_looking_up] w) = (Raise e, w')).
    { rewrite geocode_city_miss by exact Hmiss.
      now rewrite (geocode_city_body_fails
                     API_KEY net (strip city) (shown [UiSpinner msg_looking_up] w)
                     e dt Hnet). }
    split; [exact Hg|].
    rewrite on_submit_valid by assumption. unfold bind. now rewrite Hg.
  - intros lat lon w1 slat slon e dt Hg Hla Hlo Hmiss Hnet w2.
    assert (Hf : fetch_air_quality API_KEY net py_str lat lon w2
                 = (Raise e, requested (air_url lat lon) dt w2)); subst w2.
    { rewrite fetch_air_quality_miss by exact Hmiss.
      now rewrite (fetch_air_quality_body_fails
                     API_KEY net py_str lat lon
                     (shown [UiInfo (coords_text slat slon); UiSpinner msg_fetching] w1)
                     e dt Hnet). }
    split; [exact Hf|].
    rewrite (on_submit_coords _ _ _ _ _ _ _ Hk Hc Hg Hla Hlo).
    unfold bind. now rewrite Hf.
  - intros w0 e w' H. rewrite app_submitted. now rewrite H.
Qed.
End Submission.

(** C2 as stated fails on a timeout of the geocoding request: the run ends
    with the exception, and the only text shown by the handler is the
    spinner's. *)
Lemma C2_geocoding_timeout_escapes :
  app (py "k") (net_of (Fails Timeout) taipei_air) str_scalar caseless plt_stand_in
      true (py "Taipei") (fresh 0)
  = (Raise Timeout,
     mkWorld (page_header ++ [UiSpinner msg_looking_up]) [taipei_request] 1 [] []).
Proof. vm_compute. reflexivity. Qed.

(** C2 at a timeout of the geocoding request, and at a connection error of
    the air-quality request. *)
Lemma C2_witness :
  (py "k" <> [] /\ strip (py "Taipei") <> [])
  /\ on_submit (py "k") (net_of (Fails Timeout) taipei_air) str_scalar caseless plt_stand_in
               (py "Taipei") (fresh 0)
     = (Raise Timeout, mkWorld [UiSpinner msg_looking_up] [taipei_request] 1 [] [])
  /\ on_submit (py "k") (net_of taipei (Fails ConnectionError)) str_scalar caseless plt_stand_in
               (py "Taipei") (fresh 0)
     = (Raise ConnectionError,
        requested (air_quality_url (py "k") str_scalar (PyInt 25) (PyInt 121)) 1
          (shown [UiInfo (coords_text (py "25.00000") (py "121.00000"));
                  UiSpinner msg_fetching]
             (mkWorld [UiSpinner msg_looking_up] [taipei_request] 1
                      [(py "Taipei", (Some (PyInt 25, PyInt 121), 1%Z))] []))).
Proof.
  assert (Hk : py "k" <> []) by (vm_compute; discriminate).
  assert (Hc : strip (py "Taipei") <> []) by (vm_compute; discriminate).
  split; [split; assumption|]. split.
  - refine (eq_trans (proj2 (proj1 (C2_transport_failure_is_not_caught
              (py "k") (net_of (Fails Timeout) taipei_air) str_scalar caseless plt_stand_in
              (py "Taipei") (fresh 0) Hk Hc) Timeout 1%Z _ _)) _);
      vm_compute; reflexivity.
  - refine (proj2 (proj1 (proj2 (C2_transport_failure_is_not_caught
              (py "k") (net_of taipei (Fails ConnectionError)) str_scalar caseless plt_stand_in
              (py "Taipei") (fresh 0) Hk Hc))
              (PyInt 25) (PyInt 121) _ (py "25.00000") (py "121.00000")
              ConnectionError 1%Z _ _ _ _ _));
      vm_compute; reflexivity.
Defined.

(** ** Readings that cannot be used *)

Ltac case_matches :=
  repeat match goal with
         | |- context [match ?x with _ => _ end] =>
             lazymatch x with
             | context [match _ with _ => _ end] => fail
             | _ => destruct x; cbn [snd fst]
             end
         end.

Lemma requests_get_json_ui net url w :
  ui (snd (requests_get_json net url w)) = ui w.
Proof. unfold requests_get_json. case_matches; reflexivity. Qed.

Lemma geocode_city_body_ui API_KEY net city w :
  ui (snd (geocode_city_body API_KEY net city w)) = ui w.
Proof.
  unfold geocode_city_body, bind.
  pose proof (requests_get_json_ui net (geocode_url API_KEY city) w) as H.
  destruct (requests_get_json net (geocode_url API_KEY city) w) as [[v| |e] w'];
    cbn [snd] in H |- *; try exact H.
  unfold lift, ret. case_matches; exact H.
Qed.

Lemma geocode_city_ui API_KEY net city w :
  ui (snd (geocode_city API_KEY net city w)) = ui w.
Proof.
  unfold geocode_city.
  destruct (live _ _ _); [reflexivity|].
  pose proof (geocode_city_body_ui API_KEY net city w) as H.
  destruct (geocode_city_body API_KEY net city w) as [[v| |e] w']; exact H.
Qed.

Lemma fetch_air_quality_body_ui API_KEY net py_str lat lon w :
  ui (snd (fetch_air_quality_body API_KEY net py_str lat lon w)) = ui w.
Proof.
  unfold fetch_air_quality_body, bind.
  pose proof (requests_get_json_ui net (air_quality_url API_KEY py_str lat lon) w) as H.
  destruct (requests_get_json net (air_quality_url API_KEY py_str lat lon) w)
    as [[v| |e] w']; cbn [snd] in H |- *; try exact H.
  unfold lift, ret. case_matches; exact H.
Qed.

Lemma fetch_air_quality_ui API_KEY net py_str lat lon w :
  ui (snd (fetch_air_quality API_KEY net py_str lat lon w)) = ui w.
Proof.
  unfold fetch_air_quality.
  destruct (live _ _ _); [reflexivity|].
  pose proof (fetch_air_quality_body_ui API_KEY net py_str lat lon w) as H.
  destruct (fetch_air_quality_body API_KEY net py_str lat lon w) as [[v| |e] w']; exact H.
Qed.

Section Unavailable.
Variable API_KEY : pystr.
Variable net : nat -> pystr -> response * Z.
Variable py_str : pyvalue -> pystr.
Variable uni_upper : N -> pystr.
Variable plt_bar : list pystr -> list pyvalue -> res unit.

Local Abbreviation handler := (on_submit API_KEY net py_str uni_upper plt_bar).
Local Abbreviation air_url := (air_quality_url API_KEY py_str).
Local Abbreviation body := (fetch_air_quality_body API_KEY net py_str).

(** C3, as the program has it.  When the answer is an object without
    "list", or with an empty "list", [fetch_air_quality] returns None; and
    when it returns None the handler reports the failure and stops, having
    shown no chart.  When the first entry is an object without "main",
    whose "main" has no "aqi", or without "components", the subscript
    raises KeyError for that field; only "dt" may be missing, and is then
    None in the reading. *)
Theorem C3_unavailable_without_entries lat lon w d dt :
  net (List.length (calls w)) (air_url lat lon) = (Body (PyDict d), dt) ->
  (dict_lookup (py "list") d = None \/ dict_lookup (py "list") d = Some (PyList []) ->
   body lat lon w = (Ret None, requested (air_url lat lon) dt w))
  /\ (forall item rest,
         dict_lookup (py "list") d = Some (PyList (PyDict item :: rest)) ->
         (dict_lookup (py "main") item = None ->
          fst (body lat lon w) = Raise (KeyError (PyStr (py "main"))))
         /\ (forall m,
                dict_lookup (py "main") item = Some (PyDict m) ->
                dict_lookup (py "aqi") m = None ->
                fst (body lat lon w) = Raise (KeyError (PyStr (py "aqi"))))
         /\ (forall m aqi,
                dict_lookup (py "main") item = Some (PyDict m) ->
                dict_lookup (py "aqi") m = Some aqi ->
                dict_lookup (py "components") item = None ->
                fst (body lat lon w) = Raise (KeyError (PyStr (py "components"))))
         /\ (forall m aqi components,
                dict_lookup (py "main") item = Some (PyDict m) ->
                dict_lookup (py "aqi") m = Some aqi ->
                dict_lookup (py "components") item = Some components ->
                fst (body lat lon w) =
                Ret (Some (mkReading aqi components
                             match dict_lookup (py "dt") item with
                             | Some t => t
                             | None => PyNone
                             end))))
  /\ (forall city w0 w1 slat slon w2,
         API_KEY <> [] -> strip city <> [] ->
         geocode_city API_KEY net (strip city) (shown [UiSpinner msg_looking_up] w0)
           = (Ret (Some (lat, lon)), w1) ->
         format_f 5 lat = Ok slat -> format_f 5 lon = Ok slon ->
         fetch_air_quality API_KEY net py_str lat lon
           (shown [UiInfo (coords_text slat slon); UiSpinner msg_fetching] w1)
           = (Ret None, w2) ->
         handler city w0 = (Stop, shown [UiError msg_no_air_quality] w2)
         /\ ui (snd (handler city w0)) =
            ui w0 ++ [UiSpinner msg_looking_up; UiInfo (coords_text slat slon);
                      UiSpinner msg_fetching; UiError msg_no_air_quality]).
Proof.
  intros H. split; [|split].
  - intros [Hl|Hl].
    + exact (fetch_air_quality_body_no_list _ _ _ _ _ _ _ _ H Hl).
    + exact (fetch_air_quality_body_falsy_list _ _ _ _ _ _ _ _ _ H Hl eq_refl).
  - intros item rest Hl.
    rewrite (fetch_air_quality_body_entry _ _ _ _ _ _ _ _ _ _ H Hl).
    cbn [fst]. unfold getitem_str, get_str, rbind. repeat split.
    + now intros ->.
    + now intros m -> ->.
    + now intros m aqi -> -> ->.
    + intros m aqi components -> -> ->.
      now destruct (dict_lookup (py "dt") item).
  - intros city w0 w1 slat slon w2 Hk Hc Hg Hla Hlo Hf.
    assert (Hh : handler city w0 = (Stop, shown [UiError msg_no_air_quality] w2)).
    { rewrite (on_submit_coords _ _ _ _ _ _ _ _ _ _ _ _ Hk Hc Hg Hla Hlo).
      unfold bind. now rewrite Hf. }
    split; [exact Hh|]. rewrite Hh. cbn [snd shown ui].
    pose proof (fetch_air_quality_ui API_KEY net py_str lat lon
                  (shown [UiInfo (coords_text slat slon); UiSpinner msg_fetching] w1))
      as Hu2.
    rewrite Hf in Hu2. cbn [snd shown ui] in Hu2. rewrite Hu2.
    pose proof (geocode_city_ui API_KEY net (strip city)
                  (shown [UiSpinner msg_looking_up] w0)) as Hu1.
    rewrite Hg in Hu1. cbn [snd shown ui] in Hu1. rewrite Hu1.
    now rewrite <- !app_assoc.
Qed.
End Unavailable.

(** C3 as stated fails on a first entry without the expected fields: the
    call raises KeyError instead of returning None, and the run ends with
    the exception, with no failure text. *)
Lemma C3_entry_without_fields :
  fst (fetch_air_quality (py "k") (net_of taipei empty_entry) str_scalar
                         (PyInt 25) (PyInt 121) (fresh 0))
    = Raise (KeyError (PyStr (py "main")))
  /\ fst (app (py "k") (net_of taipei empty_entry) str_scalar caseless plt_stand_in
              true (py "Taipei") (fresh 0))
     = Raise (KeyError (PyStr (py "main")))
  /\ ui (snd (app (py "k") (net_of taipei empty_entry) str_scalar caseless plt_stand_in
                  true (py "Taipei") (fresh 0)))
     = page_header ++ [UiSpinner msg_looking_up;
                       UiInfo (coords_text (py "25.00000") (py "121.00000"));
                       UiSpinner msg_fetching].
Proof. vm_compute. repeat split. Qed.

(** C3 at an answer whose list of readings is empty. *)
Lemma C3_witness :
  net_of taipei no_readings (List.length (calls (fresh 0)))
         (air_quality_url (py "k") str_scalar (PyInt 25) (PyInt 121))
    = (Body (PyDict [(py "list", PyList [])]), 1%Z)
  /\ fetch_air_quality_body (py "k") (net_of taipei no_readings) str_scalar
                            (PyInt 25) (PyInt 121) (fresh 0)
     = (Ret None,
        requested (air_quality_url (py "k") str_scalar (PyInt 25) (PyInt 121)) 1 (fresh 0))
  /\ ui (snd (on_submit (py "k") (net_of taipei no_readings) str_scalar caseless plt_stand_in
                        (py "Taipei") (fresh 0)))
     = ui (fresh 0)
       ++ [UiSpinner msg_looking_up;
           UiInfo (coords_text (py "25.00000") (py "121.00000"));
           UiSpinner msg_fetching; UiError msg_no_air_quality].
Proof.
  assert (Hn : net_of taipei no_readings (List.length (calls (fresh 0)))
                 (air_quality_url (py "k") str_scalar (PyInt 25) (PyInt 121))
               = (Body (PyDict [(py "list", PyList [])]), 1%Z))
    by (vm_compute; reflexivity).
  split; [exact Hn|]. split.
  - refine (proj1 (C3_unavailable_without_entries
                     (py "k") (net_of taipei no_readings) str_scalar caseless plt_stand_in
                     (PyInt 25) (PyInt 121) (fresh 0) _ 1%Z Hn) _).
    right. vm_compute; reflexivity.
  - refine (proj2 (proj2 (proj2 (C3_unavailable_without_entries
                     (py "k") (net_of taipei no_readings) str_scalar caseless plt_stand_in
                     (PyInt 25) (PyInt 121) (fresh 0) _ 1%Z Hn))
                     (py "Taipei") (fresh 0) _ (py "25.00000") (py "121.00000") _
                     _ _ _ _ _ _)).
    + vm_compute; discriminate.
    + vm_compute; discriminate.
    + vm_compute; reflexivity.
    + vm_compute; reflexivity.
    + vm_compute; reflexivity.
    + vm_compute; reflexivity.
Defined.

(** ** Memoisation *)






Section Memo.
Variable API_KEY : pystr.
Variable net : nat -> pystr -> response * Z.
Variable py_str : pyvalue -> pystr.

Local Abbreviation geocode := (geocode_city API_KEY net).
Local Abbreviation fetch := (fetch_air_quality API_KEY net py_str).


End Memo.

(** ** The table of pollutants *)

Lemma uint_codes_digits (u : Decimal.uint) : Forall is_digit (uint_codes u).
Proof.
  induction u; simpl; constructor; auto; unfold is_digit; lia.
Qed.

Lemma decimal_nonempty (n : N) : decimal n <> [].
Proof.
  unfold decimal. destruct n as [|p]; [discriminate|].
  simpl. pose proof (Unsigned.to_uint_nonnil p) as H.
  destruct (Pos.to_uint p); [contradiction| | | | | | | | | |]; discriminate.
Qed.

Lemma fixed_point_two_places (neg : bool) (scaled : N) :
  two_places (fixed_point 2 neg scaled).
Proof.
  exists (if neg then [45] else []), (decimal (scaled / 10 ^ N.of_nat 2)),
    (48 + (scaled mod 10 ^ N.of_nat 2) / 10 mod 10), (48 + (scaled mod 10 ^ N.of_nat 2) mod 10).
  split; [reflexivity|]. split; [destruct neg; auto|].
  split; [apply uint_codes_digits|]. split; [apply decimal_nonempty|].
  unfold is_digit.
  assert (H1 : (scaled mod 10 ^ N.of_nat 2) / 10 mod 10 < 10)
    by (apply N.mod_lt; discriminate).
  assert (H2 : (scaled mod 10 ^ N.of_nat 2) mod 10 < 10)
    by (apply N.mod_lt; discriminate).
  revert H1 H2.
  generalize ((scaled mod 10 ^ N.of_nat 2) / 10 mod 10).
  generalize ((scaled mod 10 ^ N.of_nat 2) mod 10).
  intros; lia.
Qed.

Lemma format_f_two_places (v : pyvalue) (s : pystr) :
  finite_number v = true -> format_f 2 v = Ok s -> two_places s.
Proof.
  destruct v as [ |b|z|[neg m e|neg|]|x|l|d]; cbn [finite_number format_f];
    try discriminate; intros _.
  - intros H. inversion H. apply fixed_point_two_places.
  - unfold float_of_int.
    repeat match goal with
           | |- context [if ?c then _ else _] => destruct c
           end; cbn [rbind]; try discriminate;
      intros H; inversion H; apply fixed_point_two_places.
  - intros H. inversion H. apply fixed_point_two_places.
Qed.

Section Table.
Variable uni_upper : N -> pystr.

Local Abbreviation up := (upper uni_upper).
Local Abbreviation rows_of := (table_rows uni_upper).

Lemma table_rows_cons k v rest acc rows :
  rows_of ((k, v) :: rest) acc = Ok rows ->
  exists s, format_f 2 v = Ok s /\ rows_of rest (dict_set (up k) s acc) = Ok rows.
Proof.
  cbn [table_rows]. destruct (format_f 2 v) as [s|e]; cbn [rbind]; [|discriminate].
  intros H. now exists s.
Qed.

(** Every value was formatted. *)
Lemma table_rows_formats items : forall acc rows,
  rows_of items acc = Ok rows ->
  forall k v, In (k, v) items -> exists s, format_f 2 v = Ok s.
Proof.
  induction items as [|[k0 v0] rest IH]; intros acc rows H k v Hin; [destruct Hin|].
  destruct (table_rows_cons _ _ _ _ _ H) as (s & Hs & Hr).
  destruct Hin as [E|Hin]; [inversion E; subst; now exists s|].
  exact (IH _ _ Hr _ _ Hin).
Qed.

(** The row of a key holds the last value entered under it. *)
Lemma table_rows_lookup items : forall acc rows,
  rows_of items acc = Ok rows ->
  forall key,
    match last_upper uni_upper key items with
    | Some v => exists s, format_f 2 v = Ok s /\ dict_lookup key rows = Some s
    | None => dict_lookup key rows = dict_lookup key acc
    end.
Proof.
  induction items as [|[k0 v0] rest IH]; intros acc rows H key.
  - cbn in H |- *. now inversion H.
  - destruct (table_rows_cons _ _ _ _ _ H) as (s & Hs & Hr).
    specialize (IH _ _ Hr key). cbn [last_upper].
    destruct (last_upper uni_upper key rest) as [v|]; [exact IH|].
    destruct (pystr_eqb key (up k0)) eqn:E.
    + apply pystr_eqb_eq in E; subst key. exists s. split; [exact Hs|].
      rewrite IH. apply dict_lookup_set_same.
    + rewrite IH. apply dict_lookup_set_other.
      intros ->. now rewrite pystr_eqb_refl in E.
Qed.


Lemma last_upper_last pre k v post :
  (forall k' v', In (k', v') post -> up k' <> up k) ->
  last_upper uni_upper (up k) (pre ++ (k, v) :: post) = Some v.
Proof.
  intros Hpost.
  assert (Hn : last_upper uni_upper (up k) post = None).
  { induction post as [|[k' v'] post IH]; [reflexivity|].
    cbn [last_upper]. rewrite IH by (intros ? ? ?; eapply Hpost; right; eassumption).
    rewrite pystr_eqb_neq; [reflexivity|].
    intros E. exact (Hpost k' v' (or_introl eq_refl) (eq_sym E)). }
  induction pre as [|[k' v'] pre IH]; cbn [List.app last_upper].
  - now rewrite Hn, pystr_eqb_refl.
  - now rewrite IH.
Qed.

Lemma last_upper_some pre k v post :
  exists v', last_upper uni_upper (up k) (pre ++ (k, v) :: post) = Some v'.
Proof.
  induction pre as [|[k' v'] pre [x IH]]; cbn [List.app last_upper].
  - destruct (last_upper uni_upper (up k) post); [now eexists|].
    rewrite pystr_eqb_refl. now eexists.
  - rewrite IH. now eexists.
Qed.



End Table.

(** What step 3 shows for a reading whose category can be looked up and
    whose concentrations can be formatted. *)
Lemma display_shows py_str uni_upper plt_bar aqi components dt label advice rows fig w :
  labelFor aqi = Ok label -> adviceFor aqi = Ok advice ->
  table_data uni_upper components = Ok rows ->
  plot_components uni_upper plt_bar components = Ok fig ->
  display py_str uni_upper plt_bar (mkReading aqi components dt) w =
  (Ret tt,
   shown [UiSubheader (py "Air Quality Index (AQI)");
          UiWrite (py "AQI scale ranges from 1 (Good) to 5 (Very Poor).");
          UiMetric (py "AQI Value") (py_str aqi) label;
          UiWrite advice;
          UiSubheader (py "Pollutant Concentrations (μg/m³)");
          UiTable rows;
          UiPyplot fig] w).
Proof.
  intros Hl Ha Ht Hp. unfold display, bind, show, lift. cbn [r_aqi r_components].
  rewrite Hl, Ha, Ht, Hp. now rewrite !shown_shown.
Qed.

(** C7, as the program has it.  For every entry of a mapping whose table
    is built, the table has a row under the uppercased key, and the row shows
    the value, formatted with [.2f], of the last entry whose uppercased key
    is that text: the entry's own value when no later key uppercases to the
    same text.  The text of a finite number ends in a point and exactly two
    digits.  The double 12.3 gives "12.30" and the key "pm2_5" gives "PM2_5".
    The table is the one step 3 shows. *)
Theorem C7_table_rows_formatted uni_upper pre k v post rows :
  table_data uni_upper (PyDict (pre ++ (k, v) :: post)) = Ok rows ->
  (exists v' s',
      last_upper uni_upper (upper uni_upper k) (pre ++ (k, v) :: post) = Some v'
      /\ format_f 2 v' = Ok s'
      /\ dict_lookup (upper uni_upper k) rows = Some s'
      /\ (finite_number v' = true -> two_places s'))
  /\ ((forall k' v', In (k', v') post -> upper uni_upper k' <> upper uni_upper k) ->
      exists s,
        format_f 2 v = Ok s
        /\ dict_lookup (upper uni_upper k) rows = Some s
        /\ (finite_number v = true -> two_places s))
  /\ format_f 2 f_12_3 = Ok (py "12.30")
  /\ upper uni_upper (py "pm2_5") = py "PM2_5"
  /\ (forall py_str plt_bar aqi dt label advice fig w,
         labelFor aqi = Ok label -> adviceFor aqi = Ok advice ->
         plot_components uni_upper plt_bar (PyDict (pre ++ (k, v) :: post)) = Ok fig ->
         In (UiTable rows)
            (ui (snd (display py_str uni_upper plt_bar
                        (mkReading aqi (PyDict (pre ++ (k, v) :: post)) dt) w)))).
Proof.
  intros Ht. pose proof Ht as H. cbn [table_data dict_items rbind] in H.
  pose proof (table_rows_lookup uni_upper _ _ _ H (upper uni_upper k)) as Hrow.
  split; [|split; [|split; [|split; [|]]]].
  - destruct (last_upper_some uni_upper pre k v post) as [v' Hv'].
    rewrite Hv' in Hrow. destruct Hrow as (s' & Hs' & Hl).
    exists v', s'. repeat split; auto.
    intros Hf. exact (format_f_two_places _ _ Hf Hs').
  - intros Hpost. rewrite (last_upper_last uni_upper pre k v post Hpost) in Hrow.
    destruct Hrow as (s & Hs & Hl). exists s. repeat split; auto.
    intros Hf. exact (format_f_two_places _ _ Hf Hs).
  - vm_compute. reflexivity.
  - vm_compute. reflexivity.
  - intros py_str plt_bar aqi dt label advice fig w Hl Ha Hp.
    rewrite (display_shows py_str uni_upper plt_bar aqi _ dt label advice rows fig w Hl Ha Ht Hp).
    cbn [snd shown ui]. apply in_or_app. right. cbn. tauto.
Qed.

(** C7 as stated fails on two keys with one uppercase text: the table has
    the single row NO2 = 2.00, and the 1.00 of the entry "no2" appears
    nowhere. *)
Lemma C7_colliding_key_hides_value :
  table_data caseless no2_twice = Ok [(py "NO2", py "2.00")]
  /\ format_f 2 (PyFloat (FFin false 1 0)) = Ok (py "1.00").
Proof. vm_compute. split; reflexivity. Qed.

(** C7 at the last entry of the mapping pm2_5 = 15.2, o3 = 40.1. *)
Lemma C7_witness :
  table_data caseless (PyDict ([(py "pm2_5", f_15_2)] ++ (py "o3", f_40_1) :: []))
    = Ok [(py "PM2_5", py "15.20"); (py "O3", py "40.10")]
  /\ exists s,
       format_f 2 f_40_1 = Ok s
       /\ dict_lookup (upper caseless (py "o3")) [(py "PM2_5", py "15.20"); (py "O3", py "40.10")]
          = Some s
       /\ (finite_number f_40_1 = true -> two_places s).
Proof.
  assert (H : table_data caseless (PyDict ([(py "pm2_5", f_15_2)] ++ (py "o3", f_40_1) :: []))
              = Ok [(py "PM2_5", py "15.20"); (py "O3", py "40.10")])
    by (vm_compute; reflexivity).
  split; [exact H|].
  refine (proj1 (proj2 (C7_table_rows_formatted caseless _ _ _ _ _ H)) _).
  intros k' v' [].
Defined.



(** * Further properties *)

(** ** Trimming the input (line 107) *)

Lemma lstrip_head_clean (s : pystr) : head_clean (lstrip s).
Proof.
  induction s as [|c r IH]; simpl; [exact I|].
  destruct (isspace c) eqn:E; [exact IH|exact E].
Qed.

Lemma lstrip_id (s : pystr) : head_clean s -> lstrip s = s.
Proof. destruct s as [|c r]; simpl; [reflexivity|]. now intros ->. Qed.

(** [lstrip] drops a prefix of white space. *)
Lemma lstrip_suffix (s : pystr) :
  exists p, s = p ++ lstrip s /\ forallb isspace p = true.
Proof.
  induction s as [|c r (p & Hp & Hs)]; [now exists []|].
  simpl. destruct (isspace c) eqn:E.
  - exists (c :: p). simpl. rewrite E, Hs. now rewrite <- Hp.
  - now exists [].
Qed.

Lemma lstrip_nil (s : pystr) : lstrip s = [] <-> forallb isspace s = true.
Proof.
  induction s as [|c r IH]; simpl; [tauto|].
  destruct (isspace c); simpl; [exact IH|]. split; discriminate.
Qed.

Lemma forallb_rev {A} (f : A -> bool) (l : list A) :
  forallb f (rev l) = forallb f l.
Proof.
  induction l as [|x l IH]; simpl; [reflexivity|].
  rewrite forallb_app, IH. simpl. rewrite andb_true_r. apply andb_comm.
Qed.

Lemma strip_nil (s : pystr) : strip s = [] <-> forallb isspace s = true.
Proof.
  unfold strip. split.
  - intros H. apply (f_equal (@rev N)) in H. rewrite rev_involutive in H. simpl in H.
    apply lstrip_nil in H. rewrite forallb_rev in H.
    pose proof (lstrip_head_clean s) as Hc.
    destruct (lstrip s) as [|c r] eqn:E; [now apply lstrip_nil|].
    simpl in H, Hc. rewrite Hc in H. discriminate.
  - intros H. apply lstrip_nil in H. now rewrite H.
Qed.

(** What [strip] returns starts and ends with no white space. *)
Lemma strip_clean (s : pystr) : head_clean (strip s) /\ head_clean (rev (strip s)).
Proof.
  unfold strip. rewrite rev_involutive. split; [|apply lstrip_head_clean].
  pose proof (lstrip_head_clean s) as Hc.
  destruct (lstrip_suffix (rev (lstrip s))) as (p & Hp & _).
  apply (f_equal (@rev N)) in Hp. rewrite rev_involutive, rev_app_distr in Hp.
  destruct (rev (lstrip (rev (lstrip s)))) as [|c r]; [exact I|].
  rewrite Hp in Hc. exact Hc.
Qed.

Lemma strip_idempotent (s : pystr) : strip (strip s) = strip s.
Proof.
  destruct (strip_clean s) as [H1 H2].
  unfold strip at 1. rewrite (lstrip_id _ H1), (lstrip_id _ H2).
  apply rev_involutive.
Qed.

(** ** What a piece of the script may add to the world *)

Lemma shown_nil w : shown [] w = w.
Proof. destruct w; unfold shown; simpl. now rewrite app_nil_r. Qed.

Section Rules.
Context {A B : Type}.

Lemma only_shows_ret (a : A) : only_shows (ret a).
Proof. intros w. exists []. symmetry. apply shown_nil. Qed.

Lemma only_shows_lift (r : res A) : only_shows (lift r).
Proof. intros w. exists []. unfold lift. destruct r; symmetry; apply shown_nil. Qed.

Lemma only_shows_stop : only_shows (@st_stop A).
Proof. intros w. exists []. symmetry. apply shown_nil. Qed.

Lemma only_shows_bind (c : M A) (k : A -> M B) :
  only_shows c -> (forall a, only_shows (k a)) -> only_shows (bind c k).
Proof.
  intros Hc Hk w. unfold bind. destruct (Hc w) as [es Hes].
  destruct (c w) as [[a| |e] w1]; cbn [snd] in Hes |- *; subst w1.
  - destruct (Hk a (shown es w)) as [es' Hes']. exists (es ++ es').
    now rewrite Hes', shown_shown.
  - now exists es.
  - now exists es.
Qed.

Lemma only_shows_grows (P : pystr -> Prop) (c : M A) : only_shows c -> grows 0 P c.
Proof.
  intros Hc w. destruct (Hc w) as [es ->]. exists es, []. cbn [shown ui calls].
  rewrite app_nil_r. repeat split; auto.
Qed.

Lemma grows_bind n m (P : pystr -> Prop) (c : M A) (k : A -> M B) :
  grows n P c -> (forall a, grows m P (k a)) -> grows (n + m) P (bind c k).
Proof.
  intros Hc Hk w. unfold bind. destruct (Hc w) as (es & cs & Hu & Hq & Hl & HP).
  destruct (c w) as [[a| |e] w1]; cbn [snd] in Hu, Hq |- *.
  - destruct (Hk a w1) as (es' & cs' & Hu' & Hq' & Hl' & HP').
    exists (es ++ es'), (cs ++ cs').
    rewrite Hu', Hq', Hu, Hq, <- !app_assoc, length_app.
    repeat split; [lia|]. apply Forall_app. now split.
  - exists es, cs. repeat split; auto; lia.
  - exists es, cs. repeat split; auto; lia.
Qed.

Lemma grows_weaken n n' (P Q : pystr -> Prop) (c : M A) :
  (n <= n')%nat -> (forall u, P u -> Q u) -> grows n P c -> grows n' Q c.
Proof.
  intros Hn HPQ Hc w. destruct (Hc w) as (es & cs & Hu & Hq & Hl & HP).
  exists es, cs. repeat split; auto; [lia|].
  eapply Forall_impl; [|exact HP]. exact HPQ.
Qed.
End Rules.

Lemma only_shows_show (e : ui_event) : only_shows (show e).
Proof. intros w. now exists [e]. Qed.

Lemma grows_after_shows {A B} n (P : pystr -> Prop) (c : M A) (k : A -> M B) :
  only_shows c -> (forall a, grows n P (k a)) -> grows n P (bind c k).
Proof.
  intros Hc Hk. change n with (0 + n)%nat.
  apply grows_bind; [now apply only_shows_grows|exact Hk].
Qed.

Lemma grows_then_shows {A B} n (P : pystr -> Prop) (c : M A) (k : A -> M B) :
  grows n P c -> (forall a, only_shows (k a)) -> grows n P (bind c k).
Proof.
  intros Hc Hk. apply (grows_weaken (n + 0) n P P); [lia|auto|].
  apply grows_bind; [exact Hc|]. intros a. now apply only_shows_grows.
Qed.

Ltac shows :=
  repeat first
    [ apply only_shows_show | apply only_shows_lift | apply only_shows_ret
    | apply only_shows_stop | apply only_shows_bind; [|intro] ].

Section Growth.
Variable API_KEY : pystr.
Variable net : nat -> pystr -> response * Z.
Variable py_str : pyvalue -> pystr.
Variable uni_upper : N -> pystr.
Variable plt_bar : list pystr -> list pyvalue -> res unit.

Lemma requests_get_json_grows url : grows 1 (eq url) (requests_get_json net url).
Proof.
  intros w. exists [], [url]. unfold requests_get_json.
  destruct (net _ _) as [[v|e] dt]; cbn [snd requested ui calls];
    rewrite app_nil_r; repeat split; auto.
Qed.

Lemma geocode_city_body_grows city :
  grows 1 (eq (geocode_url API_KEY city)) (geocode_city_body API_KEY net city).
Proof.
  unfold geocode_city_body. apply grows_then_shows; [apply requests_get_json_grows|].
  intros res. destruct (negb (truthy res)); shows.
Qed.

Lemma geocode_city_grows city :
  grows 1 (eq (geocode_url API_KEY city)) (geocode_city API_KEY net city).
Proof.
  intros w. unfold geocode_city. destruct (live _ _ _).
  - exists [], []. cbn [snd]. rewrite !app_nil_r. repeat split; auto.
  - destruct (geocode_city_body_grows city w) as (es & cs & H).
    exists es, cs.
    destruct (geocode_city_body API_KEY net city w) as [[v| |e] w']; exact H.
Qed.

Lemma fetch_air_quality_body_grows lat lon :
  grows 1 (eq (air_quality_url API_KEY py_str lat lon))
        (fetch_air_quality_body API_KEY net py_str lat lon).
Proof.
  unfold fetch_air_quality_body. apply grows_then_shows; [apply requests_get_json_grows|].
  intros res. apply only_shows_bind; [shows|]. intros has.
  destruct (negb has); [shows|].
  apply only_shows_bind; [shows|]. intros l.
  destruct (negb (truthy l)); shows.
Qed.

Lemma fetch_air_quality_grows lat lon :
  grows 1 (eq (air_quality_url API_KEY py_str lat lon))
        (fetch_air_quality API_KEY net py_str lat lon).
Proof.
  intros w. unfold fetch_air_quality. destruct (live _ _ _).
  - exists [], []. cbn [snd]. rewrite !app_nil_r. repeat split; auto.
  - destruct (fetch_air_quality_body_grows lat lon w) as (es & cs & H).
    exists es, cs.
    destruct (fetch_air_quality_body API_KEY net py_str lat lon w) as [[v| |e] w']; exact H.
Qed.

Lemma display_only_shows aq : only_shows (display py_str uni_upper plt_bar aq).
Proof. unfold display. cbv zeta. shows. Qed.

Lemma after_fetch_only_shows aq : only_shows (after_fetch py_str uni_upper plt_bar aq).
Proof. destruct aq as [r|]; cbn [after_fetch]; [apply display_only_shows|shows]. Qed.

Lemma after_geocode_grows city coords :
  grows 1 (request_of API_KEY py_str city)
        (after_geocode API_KEY net py_str uni_upper plt_bar coords).
Proof.
  destruct coords as [[lat lon]|]; cbn [after_geocode].
  - apply grows_after_shows; [shows|]. intros slat.
    apply grows_after_shows; [shows|]. intros slon.
    apply grows_after_shows; [shows|]. intros _.
    apply grows_after_shows; [shows|]. intros _.
    apply grows_then_shows; [|intros aq; apply after_fetch_only_shows].
    apply (grows_weaken 1 1 (eq (air_quality_url API_KEY py_str lat lon)));
      [lia| |apply fetch_air_quality_grows].
    intros u <-. right. now exists lat, lon.
  - apply (grows_weaken 0 1 (request_of API_KEY py_str city)); [lia|auto|].
    apply only_shows_grows. shows.
Qed.

Lemma on_submit_grows city :
  grows 2 (request_of API_KEY py_str city) (on_submit API_KEY net py_str uni_upper plt_bar city).
Proof.
  unfold on_submit.
  apply grows_after_shows; [destruct API_KEY; shows|]. intros _.
  apply grows_after_shows; [destruct (strip city); shows|]. intros _.
  apply grows_after_shows; [shows|]. intros _.
  change 2%nat with (1 + 1)%nat. apply grows_bind.
  - apply (grows_weaken 1 1 (eq (geocode_url API_KEY (strip city))));
      [lia| |apply geocode_city_grows].
    intros u <-. now left.
  - intros coords. apply after_geocode_grows.
Qed.
End Growth.

(** ** The input and the requests of a run *)

Section Runs.
Variable API_KEY : pystr.
Variable net : nat -> pystr -> response * Z.
Variable py_str : pyvalue -> pystr.
Variable uni_upper : N -> pystr.
Variable plt_bar : list pystr -> list pyvalue -> res unit.

Local Abbreviation handler := (on_submit API_KEY net py_str uni_upper plt_bar).
Local Abbreviation page := (app API_KEY net py_str uni_upper plt_bar).

(** X1: with a credential, the handler answers with the request for a city
    name, and nothing else, exactly when every character of the input is
    white space (the empty input included). *)
Theorem X1_blank_input_is_refused city w :
  API_KEY <> [] ->
  (handler city w = (Stop, shown [UiWarning msg_no_city] w)
   <-> forallb isspace city = true).
Proof.
  intros Hk. split.
  - intros H. destruct (forallb isspace city) eqn:E; [reflexivity|exfalso].
    assert (Hc : strip city <> []).
    { intros Hs. apply strip_nil in Hs. congruence. }
    rewrite on_submit_valid in H by assumption.
    assert (Hg : grows 2 (request_of API_KEY py_str city)
                   (bind (geocode_city API_KEY net (strip city))
                         (after_geocode API_KEY net py_str uni_upper plt_bar))).
    { change 2%nat with (1 + 1)%nat. apply grows_bind.
      - apply (grows_weaken 1 1 (eq (geocode_url API_KEY (strip city))));
          [lia| |apply geocode_city_grows].
        intros u <-. now left.
      - intros coords. apply after_geocode_grows. }
    destruct (Hg (shown [UiSpinner msg_looking_up] w)) as (es & cs & Hu & _).
    rewrite H in Hu. cbn [snd shown ui] in Hu.
    rewrite <- app_assoc in Hu. apply app_inv_head in Hu. discriminate.
  - intros H. apply on_submit_no_city; [exact Hk|]. now apply strip_nil.
Qed.

(** X2: the handler sees the input only through its trimmed form, which
    starts and ends with no white space and is not changed by trimming
    again: an input and its trimmed form give the same run. *)
Theorem X2_only_the_trimmed_input_matters city w :
  handler (strip city) w = handler city w
  /\ strip (strip city) = strip city
  /\ head_clean (strip city)
  /\ head_clean (rev (strip city)).
Proof.
  split; [|split; [apply strip_idempotent|apply strip_clean]].
  unfold on_submit. now rewrite strip_idempotent.
Qed.

(** X3: whatever the input, the network and the caches, a run of the page
    only adds to what is shown and to what was requested, and it adds at most
    two requests, each the geocoding request for the trimmed input or an
    air-quality request; a run without a submission shows the header and the
    footer, requests nothing and ends normally. *)
Theorem X3_a_run_makes_at_most_two_requests submitted city w :
  exists es cs,
    ui (snd (page submitted city w)) = ui w ++ es
    /\ calls (snd (page submitted city w)) = calls w ++ cs
    /\ (List.length cs <= 2)%nat
    /\ Forall (request_of API_KEY py_str city) cs
    /\ page false city w = (Ret tt, shown (page_header ++ page_footer) w).
Proof.
  assert (Hf : page false city w = (Ret tt, shown (page_header ++ page_footer) w)).
  { unfold app, bind, show, ret. now rewrite !shown_shown. }
  destruct submitted.
  - assert (Hg : grows 2 (request_of API_KEY py_str city) (page true city)).
    { unfold app.
      apply grows_after_shows; [shows|]. intros _.
      apply grows_after_shows; [shows|]. intros _.
      apply grows_then_shows; [apply on_submit_grows|]. intros _. shows. }
    destruct (Hg w) as (es & cs & Hu & Hq & Hl & HP).
    exists es, cs. repeat split; auto.
  - exists (page_header ++ page_footer), [].
    rewrite Hf. cbn [snd shown ui calls]. rewrite app_nil_r. repeat split; auto.
Qed.
End Runs.

(** X1 at an input of a space, a tab and a line feed. *)
Lemma X1_witness :
  py "k" <> []
  /\ forallb isspace [32; 9; 10] = true
  /\ on_submit (py "k") (net_of taipei taipei_air) str_scalar caseless plt_stand_in [32; 9; 10] (fresh 0)
     = (Stop, shown [UiWarning msg_no_city] (fresh 0)).
Proof.
  assert (Hk : py "k" <> []) by (vm_compute; discriminate).
  assert (Hs : forallb isspace [32; 9; 10] = true) by (vm_compute; reflexivity).
  split; [exact Hk|]. split; [exact Hs|].
  exact (proj2 (X1_blank_input_is_refused
                  (py "k") (net_of taipei taipei_air) str_scalar caseless plt_stand_in
                  [32; 9; 10] (fresh 0) Hk) Hs).
Defined.

(** ** Expiry and failures of the memoised calls *)

Lemma live_expired {V} (ttl now t : Z) (v : V) :
  (t + ttl <= now)%Z -> live ttl now (Some (v, t)) = None.
Proof. intros H. unfold live. now rewrite (proj2 (Z.ltb_ge _ _) H). Qed.

Section Expiry.
Variable API_KEY : pystr.
Variable net : nat -> pystr -> response * Z.
Variable py_str : pyvalue -> pystr.

Local Abbreviation geocode := (geocode_city API_KEY net).
Local Abbreviation fetch := (fetch_air_quality API_KEY net py_str).

(** The body of each client makes exactly one request and touches nothing
    else. *)
Lemma geocode_city_body_world city w :
  snd (geocode_city_body API_KEY net city w)
  = requested (geocode_url API_KEY city)
              (snd (net (List.length (calls w)) (geocode_url API_KEY city))) w.
Proof.
  unfold geocode_city_body, bind, requests_get_json, lift, ret.
  destruct (net _ _) as [[v|e] dt]; cbn [snd]; [|reflexivity].
  case_matches; reflexivity.
Qed.

Lemma fetch_air_quality_body_world lat lon w :
  snd (fetch_air_quality_body API_KEY net py_str lat lon w)
  = requested (air_quality_url API_KEY py_str lat lon)
              (snd (net (List.length (calls w)) (air_quality_url API_KEY py_str lat lon))) w.
Proof.
  unfold fetch_air_quality_body, bind, requests_get_json, lift, ret.
  destruct (net _ _) as [[v|e] dt]; cbn [snd]; [|reflexivity].
  case_matches; reflexivity.
Qed.

Lemma geocode_city_miss_world city w :
  live geocode_ttl (clock w) (dict_lookup city (geo_cache w)) = None ->
  calls (snd (geocode city w)) = calls w ++ [geocode_url API_KEY city]
  /\ ui (snd (geocode city w)) = ui w
  /\ aq_cache (snd (geocode city w)) = aq_cache w
  /\ (forall v w1, geocode city w = (Ret v, w1) ->
                   geo_cache w1 = dict_set city (v, clock w1) (geo_cache w))
  /\ (forall e w1, geocode city w = (Raise e, w1) -> geo_cache w1 = geo_cache w)
  /\ (forall w1, geocode city w <> (Stop, w1)).
Proof.
  intros Hmiss. rewrite geocode_city_miss by exact Hmiss.
  pose proof (geocode_city_body_world city w) as Hw.
  assert (Hs : forall w1, geocode_city_body API_KEY net city w <> (Stop, w1)).
  { unfold geocode_city_body, bind, requests_get_json, lift, ret.
    intros w1. case_matches; discriminate. }
  destruct (geocode_city_body API_KEY net city w) as [[v| |e] w'];
    cbn [snd] in Hw |- *; subst w'; cbn [requested calls ui aq_cache geo_cache clock].
  - repeat split; auto; try discriminate.
    intros v0 w1 H. inversion H; subst. reflexivity.
  - now elim (Hs (requested (geocode_url API_KEY city)
                    (snd (net (List.length (calls w)) (geocode_url API_KEY city))) w)).
  - repeat split; auto; try discriminate.
    intros e0 w1 H. inversion H; subst. reflexivity.
Qed.

Lemma fetch_air_quality_miss_world lat lon w :
  live air_quality_ttl (clock w) (coords_lookup (lat, lon) (aq_cache w)) = None ->
  calls (snd (fetch lat lon w)) = calls w ++ [air_quality_url API_KEY py_str lat lon]
  /\ ui (snd (fetch lat lon w)) = ui w
  /\ geo_cache (snd (fetch lat lon w)) = geo_cache w
  /\ (forall v w1, fetch lat lon w = (Ret v, w1) ->
                   aq_cache w1 = coords_store (lat, lon) (v, clock w1) (aq_cache w))
  /\ (forall e w1, fetch lat lon w = (Raise e, w1) -> aq_cache w1 = aq_cache w)
  /\ (forall w1, fetch lat lon w <> (Stop, w1)).
Proof.
  intros Hmiss. rewrite fetch_air_quality_miss by exact Hmiss.
  pose proof (fetch_air_quality_body_world lat lon w) as Hw.
  assert (Hs : forall w1, fetch_air_quality_body API_KEY net py_str lat lon w <> (Stop, w1)).
  { unfold fetch_air_quality_body, bind, requests_get_json, lift, ret.
    intros w1. case_matches; discriminate. }
  destruct (fetch_air_quality_body API_KEY net py_str lat lon w) as [[v| |e] w'];
    cbn [snd] in Hw |- *; subst w'; cbn [requested calls ui aq_cache geo_cache clock].
  - repeat split; auto; try discriminate.
    intros v0 w1 H. inversion H; subst. reflexivity.
  - now elim (Hs (requested (air_quality_url API_KEY py_str lat lon)
                    (snd (net (List.length (calls w))
                              (air_quality_url API_KEY py_str lat lon))) w)).
  - repeat split; auto; try discriminate.
    intros e0 w1 H. inversion H; subst. reflexivity.
Qed.


(** X4: an entry serves calls only before its time-to-live has passed.  A
    call that finds the entry of its argument stored [ttl] seconds ago or
    more makes the request again, exactly once, and what it returns replaces
    the entry, stored at the time of the return. *)
Theorem X4_an_expired_entry_is_requested_again :
  (forall city w v t,
      dict_lookup city (geo_cache w) = Some (v, t) ->
      (t + geocode_ttl <= clock w)%Z ->
      calls (snd (geocode city w)) = calls w ++ [geocode_url API_KEY city]
      /\ forall v' w1, geocode city w = (Ret v', w1) ->
                       dict_lookup city (geo_cache w1) = Some (v', clock w1))
  /\ (forall lat lon w v t,
         coords_lookup (lat, lon) (aq_cache w) = Some (v, t) ->
         (t + air_quality_ttl <= clock w)%Z ->
         calls (snd (fetch lat lon w))
           = calls w ++ [air_quality_url API_KEY py_str lat lon]
         /\ forall v' w1, fetch lat lon w = (Ret v', w1) ->
                          coords_lookup (lat, lon) (aq_cache w1) = Some (v', clock w1)).
Proof.
  split.
  - intros city w v t He Ht.
    assert (Hmiss : live geocode_ttl (clock w) (dict_lookup city (geo_cache w)) = None)
      by (rewrite He; now apply live_expired).
    destruct (geocode_city_miss_world city w Hmiss) as (Hc & _ & _ & Hr & _).
    split; [exact Hc|]. intros v' w1 H. rewrite (Hr _ _ H).
    apply dict_lookup_set_same.
  - intros lat lon w v t He Ht.
    assert (Hmiss : live air_quality_ttl (clock w)
                      (coords_lookup (lat, lon) (aq_cache w)) = None)
      by (rewrite He; now apply live_expired).
    destruct (fetch_air_quality_miss_world lat lon w Hmiss) as (Hc & _ & _ & Hr & _).
    split; [exact Hc|]. intros v' w1 H. rewrite (Hr _ _ H).
    apply coords_lookup_store_same.
Qed.

(** X5: a memoised call never stops the run, and one that raises has made
    exactly one request and stored nothing: what is shown and both caches are
    as before, so the failure is not remembered. *)
Theorem X5_a_failed_call_stores_nothing :
  (forall city w e w1,
      geocode city w = (Raise e, w1) ->
      calls w1 = calls w ++ [geocode_url API_KEY city]
      /\ ui w1 = ui w /\ geo_cache w1 = geo_cache w /\ aq_cache w1 = aq_cache w)
  /\ (forall lat lon w e w1,
         fetch lat lon w = (Raise e, w1) ->
         calls w1 = calls w ++ [air_quality_url API_KEY py_str lat lon]
         /\ ui w1 = ui w /\ geo_cache w1 = geo_cache w /\ aq_cache w1 = aq_cache w)
  /\ (forall city w, fst (geocode city w) = Stop -> False)
  /\ (forall lat lon w, fst (fetch lat lon w) = Stop -> False).
Proof.
  split; [|split; [|split]].
  - intros city w e w1 H.
    destruct (live geocode_ttl (clock w) (dict_lookup city (geo_cache w))) as [v|] eqn:E.
    + rewrite (geocode_city_hit _ _ _ _ _ E) in H. discriminate.
    + destruct (geocode_city_miss_world city w E) as (Hc & Hu & Ha & _ & Hg & _).
      rewrite H in Hc, Hu, Ha. cbn [snd] in Hc, Hu, Ha.
      repeat split; auto. exact (Hg _ _ H).
  - intros lat lon w e w1 H.
    destruct (live air_quality_ttl (clock w) (coords_lookup (lat, lon) (aq_cache w)))
      as [v|] eqn:E.
    + rewrite (fetch_air_quality_hit _ _ _ _ _ _ _ E) in H. discriminate.
    + destruct (fetch_air_quality_miss_world lat lon w E) as (Hc & Hu & Hg & _ & Ha & _).
      rewrite H in Hc, Hu, Hg. cbn [snd] in Hc, Hu, Hg.
      repeat split; auto. exact (Ha _ _ H).
  - intros city w H.
    destruct (live geocode_ttl (clock w) (dict_lookup city (geo_cache w))) as [v|] eqn:E.
    + rewrite (geocode_city_hit _ _ _ _ _ E) in H. discriminate.
    + destruct (geocode_city_miss_world city w E) as (_ & _ & _ & _ & _ & Hs).
      destruct (geocode city w) as [[v| |e] w1]; try discriminate. now elim (Hs w1).
  - intros lat lon w H.
    destruct (live air_quality_ttl (clock w) (coords_lookup (lat, lon) (aq_cache w)))
      as [v|] eqn:E.
    + rewrite (fetch_air_quality_hit _ _ _ _ _ _ _ E) in H. discriminate.
    + destruct (fetch_air_quality_miss_world lat lon w E) as (_ & _ & _ & _ & _ & Hs).
      destruct (fetch lat lon w) as [[v| |e] w1]; try discriminate. now elim (Hs w1).
Qed.
End Expiry.


(** X4 at an entry of Taipei stored at second 1 and looked up at second
    601. *)
Lemma X4_witness :
  let w := mkWorld [] [] 601 [(py "Taipei", (None, 1%Z))] [] in
  dict_lookup (py "Taipei") (geo_cache w) = Some (None, 1%Z)
  /\ calls (snd (geocode_city (py "k") (net_of taipei taipei_air) (py "Taipei") w))
     = calls w ++ [geocode_url (py "k") (py "Taipei")].
Proof.
  cbv zeta. split; [vm_compute; reflexivity|].
  refine (proj1 (proj1 (X4_an_expired_entry_is_requested_again
                          (py "k") (net_of taipei taipei_air) str_scalar)
                       (py "Taipei") _ None 1%Z _ _)).
  - vm_compute; reflexivity.
  - vm_compute; discriminate.
Defined.

(** X5 at a geocoding request that times out. *)
Lemma X5_witness :
  geocode_city (py "k") (net_of (Fails Timeout) taipei_air) (py "Taipei") (fresh 0)
    = (Raise Timeout, requested taipei_request 1 (fresh 0))
  /\ geo_cache (requested taipei_request 1 (fresh 0)) = geo_cache (fresh 0).
Proof.
  assert (H : geocode_city (py "k") (net_of (Fails Timeout) taipei_air) (py "Taipei") (fresh 0)
              = (Raise Timeout, requested taipei_request 1 (fresh 0)))
    by (vm_compute; reflexivity).
  split; [exact H|].
  exact (proj1 (proj2 (proj2 (proj1 (X5_a_failed_call_stores_nothing
           (py "k") (net_of (Fails Timeout) taipei_air) str_scalar) _ _ _ _ H)))).
Defined.

(** ** A submission that succeeds *)

Section Success.
Variable API_KEY : pystr.
Variable net : nat -> pystr -> response * Z.
Variable py_str : pyvalue -> pystr.
Variable uni_upper : N -> pystr.
Variable plt_bar : list pystr -> list pyvalue -> res unit.

Local Abbreviation handler := (on_submit API_KEY net py_str uni_upper plt_bar).
Local Abbreviation page := (app API_KEY net py_str uni_upper plt_bar).
Local Abbreviation geo_url := (geocode_url API_KEY).
Local Abbreviation air_url := (air_quality_url API_KEY py_str).

(** A geocoding call that goes out and finds coordinates in the first
    candidate. *)
Lemma geocode_city_found city w c rest dt lat lon :
  live geocode_ttl (clock w) (dict_lookup city (geo_cache w)) = None ->
  net (List.length (calls w)) (geo_url city) = (Body (PyList (PyDict c :: rest)), dt) ->
  dict_lookup (py "lat") c = Some lat -> dict_lookup (py "lon") c = Some lon ->
  geocode_city API_KEY net city w =
  (Ret (Some (lat, lon)),
   mkWorld (ui w) (calls w ++ [geo_url city]) (clock w + dt)
           (dict_set city (Some (lat, lon), (clock w + dt)%Z) (geo_cache w))
           (aq_cache w)).
Proof.
  intros Hmiss Hnet Hla Hlo. rewrite geocode_city_miss by exact Hmiss.
  rewrite (geocode_city_body_candidate _ _ _ _ _ _ _ Hnet).
  unfold getitem_str. now rewrite Hla, Hlo.
Qed.

(** An air-quality call that goes out and finds a first entry with its
    fields. *)
Lemma fetch_air_quality_found lat lon w d item rest dt m aqi components :
  live air_quality_ttl (clock w) (coords_lookup (lat, lon) (aq_cache w)) = None ->
  net (List.length (calls w)) (air_url lat lon) = (Body (PyDict d), dt) ->
  dict_lookup (py "list") d = Some (PyList (PyDict item :: rest)) ->
  dict_lookup (py "main") item = Some (PyDict m) ->
  dict_lookup (py "aqi") m = Some aqi ->
  dict_lookup (py "components") item = Some components ->
  let r := mkReading aqi components
             match dict_lookup (py "dt") item with Some t => t | None => PyNone end in
  fetch_air_quality API_KEY net py_str lat lon w =
  (Ret (Some r),
   mkWorld (ui w) (calls w ++ [air_url lat lon]) (clock w + dt) (geo_cache w)
           (coords_store (lat, lon) (Some r, (clock w + dt)%Z) (aq_cache w))).
Proof.
  intros Hmiss Hnet Hl Hm Ha Hc r. rewrite fetch_air_quality_miss by exact Hmiss.
  rewrite (fetch_air_quality_body_entry _ _ _ _ _ _ _ _ _ _ Hnet Hl).
  unfold getitem_str, get_str, rbind. rewrite Hm, Ha, Hc.
  subst r. now destruct (dict_lookup (py "dt") item).
Qed.

Lemma on_submit_success city w c rest dt1 lat lon slat slon d item rest' dt2
      m aqi components label advice rows fig :
  API_KEY <> [] -> strip city <> [] ->
  live geocode_ttl (clock w) (dict_lookup (strip city) (geo_cache w)) = None ->
  net (List.length (calls w)) (geo_url (strip city))
    = (Body (PyList (PyDict c :: rest)), dt1) ->
  dict_lookup (py "lat") c = Some lat -> dict_lookup (py "lon") c = Some lon ->
  format_f 5 lat = Ok slat -> format_f 5 lon = Ok slon ->
  live air_quality_ttl (clock w + dt1) (coords_lookup (lat, lon) (aq_cache w)) = None ->
  net (S (List.length (calls w))) (air_url lat lon) = (Body (PyDict d), dt2) ->
  dict_lookup (py "list") d = Some (PyList (PyDict item :: rest')) ->
  dict_lookup (py "main") item = Some (PyDict m) ->
  dict_lookup (py "aqi") m = Some aqi ->
  dict_lookup (py "components") item = Some components ->
  labelFor aqi = Ok label -> adviceFor aqi = Ok advice ->
  table_data uni_upper components = Ok rows ->
  plot_components uni_upper plt_bar components = Ok fig ->
  let r := mkReading aqi components
             match dict_lookup (py "dt") item with Some t => t | None => PyNone end in
  handler city w =
  (Ret tt,
   mkWorld (ui w ++ [UiSpinner msg_looking_up; UiInfo (coords_text slat slon);
                     UiSpinner msg_fetching]
                 ++ reading_view (py_str aqi) label advice rows fig)
           (calls w ++ [geo_url (strip city); air_url lat lon])
           (clock w + dt1 + dt2)
           (dict_set (strip city) (Some (lat, lon), (clock w + dt1)%Z) (geo_cache w))
           (coords_store (lat, lon) (Some r, (clock w + dt1 + dt2)%Z) (aq_cache w))).
Proof.
  intros Hk Hc Hgm Hgn Hla Hlo Hsa Hso Ham Han Hl Hm Ha Hcs Hlb Had Ht Hp r.
  pose proof (geocode_city_found (strip city) (shown [UiSpinner msg_looking_up] w)
                c rest dt1 lat lon Hgm Hgn Hla Hlo) as Hg.
  rewrite (on_submit_coords _ _ _ _ _ _ _ _ _ _ _ _ Hk Hc Hg Hsa Hso).
  unfold bind.
  assert (Hn2 : net (List.length (calls w ++ [geo_url (strip city)])) (air_url lat lon)
                = (Body (PyDict d), dt2)).
  { rewrite length_app. cbn [List.length]. now rewrite Nat.add_1_r. }
  match goal with
  | |- context [fetch_air_quality _ _ _ _ _ ?W] =>
      rewrite (fetch_air_quality_found lat lon W d item rest' dt2 m aqi components
                 Ham Hn2 Hl Hm Ha Hcs)
  end.
  cbn [after_fetch].
  rewrite (display_shows py_str uni_upper plt_bar aqi components _ label advice rows fig _
             Hlb Had Ht Hp).
  unfold shown; cbn [ui calls clock geo_cache aq_cache].
  fold r. unfold reading_view. now rewrite <- !app_assoc.
Qed.
(** X6: a submission that passes validation, finds nothing in the caches,
    gets a first candidate with coordinates and a first reading with its
    fields, can format the coordinates and every concentration, has a
    category whose label and advice look-ups return, and has its chart drawn
    by the plotting library, ends normally.  It has made two requests,
    the geocoding one for the trimmed input and then the air-quality one for
    exactly the coordinates of the candidate; it has shown the spinner text,
    the coordinates, the second spinner text, the category with label and
    advice, the table, the chart and the footer; and both results are in the
    caches, each stored at the time its request returned. *)
Theorem X6_a_successful_submission city w c rest dt1 lat lon slat slon d item rest' dt2
        m aqi components label advice rows fig :
  API_KEY <> [] -> strip city <> [] ->
  live geocode_ttl (clock w) (dict_lookup (strip city) (geo_cache w)) = None ->
  net (List.length (calls w)) (geo_url (strip city))
    = (Body (PyList (PyDict c :: rest)), dt1) ->
  dict_lookup (py "lat") c = Some lat -> dict_lookup (py "lon") c = Some lon ->
  format_f 5 lat = Ok slat -> format_f 5 lon = Ok slon ->
  live air_quality_ttl (clock w + dt1) (coords_lookup (lat, lon) (aq_cache w)) = None ->
  net (S (List.length (calls w))) (air_url lat lon) = (Body (PyDict d), dt2) ->
  dict_lookup (py "list") d = Some (PyList (PyDict item :: rest')) ->
  dict_lookup (py "main") item = Some (PyDict m) ->
  dict_lookup (py "aqi") m = Some aqi ->
  dict_lookup (py "components") item = Some components ->
  labelFor aqi = Ok label -> adviceFor aqi = Ok advice ->
  table_data uni_upper components = Ok rows ->
  plot_components uni_upper plt_bar components = Ok fig ->
  let r := mkReading aqi components
             match dict_lookup (py "dt") item with Some t => t | None => PyNone end in
  page true city w =
  (Ret tt,
   mkWorld (ui w ++ page_header
                 ++ [UiSpinner msg_looking_up; UiInfo (coords_text slat slon);
                     UiSpinner msg_fetching]
                 ++ reading_view (py_str aqi) label advice rows fig
                 ++ page_footer)
           (calls w ++ [geo_url (strip city); air_url lat lon])
           (clock w + dt1 + dt2)
           (dict_set (strip city) (Some (lat, lon), (clock w + dt1)%Z) (geo_cache w))
           (coords_store (lat, lon) (Some r, (clock w + dt1 + dt2)%Z) (aq_cache w))).
Proof.
  intros Hk Hc Hgm Hgn Hla Hlo Hsa Hso Ham Han Hl Hm Ha Hcs Hlb Had Ht Hp r.
  rewrite app_submitted.
  rewrite (on_submit_success city (shown page_header w) c rest dt1 lat lon slat slon
             d item rest' dt2 m aqi components label advice rows fig
             Hk Hc Hgm Hgn Hla Hlo Hsa Hso Ham Han Hl Hm Ha Hcs Hlb Had Ht Hp).
  unfold shown; cbn [ui calls clock geo_cache aq_cache]. fold r.
  now rewrite <- !app_assoc.
Qed.

(** X7: coordinates that cannot be formatted end the submission before the
    air-quality call.  When the latitude, or else the longitude, of the
    geocoding result has no [.5f] format (a string raises ValueError, None
    raises TypeError), the handler ends with that exception in the world the
    geocoding call left: the coordinates are not shown and no air-quality
    request is made. *)
Theorem X7_unformattable_coordinates_end_the_run city w lat lon w1 :
  API_KEY <> [] -> strip city <> [] ->
  geocode_city API_KEY net (strip city) (shown [UiSpinner msg_looking_up] w)
    = (Ret (Some (lat, lon)), w1) ->
  (forall e, format_f 5 lat = Err e -> handler city w = (Raise e, w1))
  /\ (forall slat e,
         format_f 5 lat = Ok slat -> format_f 5 lon = Err e ->
         handler city w = (Raise e, w1))
  /\ (forall s, lat = PyStr s -> handler city w = (Raise ValueError, w1))
  /\ (lat = PyNone -> handler city w = (Raise TypeError, w1)).
Proof.
  intros Hk Hc Hg.
  assert (H1 : forall e, format_f 5 lat = Err e -> handler city w = (Raise e, w1)).
  { intros e He. rewrite on_submit_valid by assumption. unfold bind at 1.
    rewrite Hg. unfold after_geocode, bind, lift. now rewrite He. }
  split; [exact H1|]. split; [|split].
  - intros slat e Hs He. rewrite on_submit_valid by assumption. unfold bind at 1.
    rewrite Hg. unfold after_geocode, bind, lift. now rewrite Hs, He.
  - intros s ->. now apply H1.
  - intros ->. now apply H1.
Qed.

(** X12: a submission whose answers are in the caches makes no request.
    When the trimmed input is memoised as not found, the handler reports it
    again; when its coordinates and their reading (or the absence of one) are
    both memoised and live, the handler only shows elements: the requests,
    the clock and both caches are as before. *)
Theorem X12_a_memoised_submission_makes_no_request city w :
  API_KEY <> [] -> strip city <> [] ->
  (live geocode_ttl (clock w) (dict_lookup (strip city) (geo_cache w)) = Some None ->
   handler city w
     = (Stop, shown [UiSpinner msg_looking_up; UiError msg_city_not_found] w))
  /\ (forall lat lon slat slon aq,
         live geocode_ttl (clock w) (dict_lookup (strip city) (geo_cache w))
           = Some (Some (lat, lon)) ->
         format_f 5 lat = Ok slat -> format_f 5 lon = Ok slon ->
         live air_quality_ttl (clock w) (coords_lookup (lat, lon) (aq_cache w)) = Some aq ->
         exists es,
           snd (handler city w)
             = shown ([UiSpinner msg_looking_up; UiInfo (coords_text slat slon);
                       UiSpinner msg_fetching] ++ es) w
           /\ calls (snd (handler city w)) = calls w).
Proof.
  intros Hk Hc. split.
  - intros Hg. rewrite on_submit_valid by assumption. unfold bind at 1.
    rewrite (geocode_city_hit API_KEY net (strip city)
               (shown [UiSpinner msg_looking_up] w) None Hg).
    cbn [after_geocode]. unfold bind, show, st_stop. now rewrite shown_shown.
  - intros lat lon slat slon aq Hg Hsa Hso Ha.
    pose proof (geocode_city_hit API_KEY net (strip city)
                  (shown [UiSpinner msg_looking_up] w) _ Hg) as Hgc.
    rewrite (on_submit_coords _ _ _ _ _ _ _ _ _ _ _ _ Hk Hc Hgc Hsa Hso).
    unfold bind.
    rewrite (fetch_air_quality_hit API_KEY net py_str lat lon
               (shown [UiInfo (coords_text slat slon); UiSpinner msg_fetching]
                      (shown [UiSpinner msg_looking_up] w)) aq Ha).
    destruct (after_fetch_only_shows py_str uni_upper plt_bar aq
                (shown [UiInfo (coords_text slat slon); UiSpinner msg_fetching]
                       (shown [UiSpinner msg_looking_up] w))) as [es Hes].
    exists es. rewrite Hes, !shown_shown. cbn [List.app]. split; reflexivity.
Qed.
End Success.

(** X6 at a submission of " Taipei " to a process that has just started. *)
Lemma X6_witness :
  fst (app (py "k") (net_of taipei taipei_air) str_scalar caseless plt_stand_in
           true (py " Taipei ") (fresh 0)) = Ret tt
  /\ calls (snd (app (py "k") (net_of taipei taipei_air) str_scalar caseless plt_stand_in
                     true (py " Taipei ") (fresh 0)))
     = [geocode_url (py "k") (py "Taipei");
        air_quality_url (py "k") str_scalar (PyInt 25) (PyInt 121)]
  /\ clock (snd (app (py "k") (net_of taipei taipei_air) str_scalar caseless plt_stand_in
                     true (py " Taipei ") (fresh 0))) = 2%Z.
Proof.
  pose proof (X6_a_successful_submission
                (py "k") (net_of taipei taipei_air) str_scalar caseless plt_stand_in
                (py " Taipei ") (fresh 0)
                [(py "name", PyStr (py "Taipei")); (py "lat", PyInt 25); (py "lon", PyInt 121)]
                [] 1%Z (PyInt 25) (PyInt 121) (py "25.00000") (py "121.00000")
                [(py "list",
                  PyList [PyDict [(py "main", PyDict [(py "aqi", PyInt 2)]);
                                  (py "components",
                                   PyDict [(py "pm2_5", f_15_2); (py "o3", f_40_1)]);
                                  (py "dt", PyInt 1755945555)]])]
                [(py "main", PyDict [(py "aqi", PyInt 2)]);
                 (py "components", PyDict [(py "pm2_5", f_15_2); (py "o3", f_40_1)]);
                 (py "dt", PyInt 1755945555)]
                [] 1%Z [(py "aqi", PyInt 2)] (PyInt 2)
                (PyDict [(py "pm2_5", f_15_2); (py "o3", f_40_1)])
                (py "Fair")
                (py "🙂 Acceptable air quality. Minor precautions for sensitive groups.")
                [(py "PM2_5", py "15.20"); (py "O3", py "40.10")]
                (mkFigure [py "PM2_5"; py "O3"] [f_15_2; f_40_1] (py "skyblue")
                          (py "Air Pollutant Concentrations (μg/m³)")
                          (py "Concentration (μg/m³)") (py "y"))) as H.
  cbv zeta in H.
  rewrite H; [repeat split | .. ]; try (vm_compute; reflexivity);
    vm_compute; discriminate.
Defined.

(** X7 at a candidate whose latitude is the string "25.0". *)
Lemma X7_witness :
  on_submit (py "k")
            (net_of (Body (PyList [PyDict [(py "lat", PyStr (py "25.0"));
                                           (py "lon", PyInt 121)]])) taipei_air)
            str_scalar caseless plt_stand_in (py "Taipei") (fresh 0)
  = (Raise ValueError,
     mkWorld [UiSpinner msg_looking_up] [taipei_request] 1
             [(py "Taipei", (Some (PyStr (py "25.0"), PyInt 121), 1%Z))] []).
Proof.
  refine (proj1 (proj2 (proj2 (X7_unformattable_coordinates_end_the_run
            (py "k")
            (net_of (Body (PyList [PyDict [(py "lat", PyStr (py "25.0"));
                                           (py "lon", PyInt 121)]])) taipei_air)
            str_scalar caseless plt_stand_in (py "Taipei") (fresh 0)
            (PyStr (py "25.0")) (PyInt 121) _ _ _ _))) (py "25.0") eq_refl).
  - vm_compute; discriminate.
  - vm_compute; discriminate.
  - vm_compute; reflexivity.
Defined.

(** X12 at a second submission of Taipei, 100 seconds after a first one that
    stored both results. *)
Lemma X12_witness :
  let w := mkWorld [] [] 102
             [(py "Taipei", (Some (PyInt 25, PyInt 121), 1%Z))]
             [((PyInt 25, PyInt 121), (None, 2%Z))] in
  calls (snd (on_submit (py "k") (net_of taipei taipei_air) str_scalar caseless plt_stand_in
                        (py "Taipei") w)) = calls w.
Proof.
  cbv zeta.
  destruct (proj2 (X12_a_memoised_submission_makes_no_request
                     (py "k") (net_of taipei taipei_air) str_scalar caseless plt_stand_in
                     (py "Taipei")
                     (mkWorld [] [] 102
                        [(py "Taipei", (Some (PyInt 25, PyInt 121), 1%Z))]
                        [((PyInt 25, PyInt 121), (None, 2%Z))])
                     ltac:(vm_compute; discriminate) ltac:(vm_compute; discriminate))
                  (PyInt 25) (PyInt 121) (py "25.00000") (py "121.00000") None
                  ltac:(vm_compute; reflexivity) ltac:(vm_compute; reflexivity)
                  ltac:(vm_compute; reflexivity) ltac:(vm_compute; reflexivity))
    as (es & _ & H).
  exact H.
Defined.

(** ** The table beside the chart *)

Lemma dict_set_fresh {V} (k : pystr) (v : V) (d : list (pystr * V)) :
  ~ In k (map fst d) -> dict_set k v d = d ++ [(k, v)].
Proof.
  induction d as [|[k0 v0] d IH]; cbn [dict_set map fst List.app]; intros H;
    [reflexivity|].
  rewrite pystr_eqb_neq by (intros ->; apply H; now left).
  rewrite IH; [reflexivity|]. intros Hin. apply H. now right.
Qed.

Section Rows.
Variable uni_upper : N -> pystr.
Variable plt_bar : list pystr -> list pyvalue -> res unit.

Local Abbreviation up := (upper uni_upper).
Local Abbreviation rows_of := (table_rows uni_upper).

(** As long as no uppercased key repeats, each entry adds its row at the
    end. *)
Lemma table_rows_distinct items : forall acc rows,
  rows_of items acc = Ok rows ->
  NoDup (map fst acc ++ map (fun kv => up (fst kv)) items) ->
  exists new,
    rows = acc ++ new
    /\ Forall2 (fun (kv : pystr * pyvalue) (r : pystr * pystr) =>
                  fst r = up (fst kv) /\ format_f 2 (snd kv) = Ok (snd r))
               items new.
Proof.
  induction items as [|[k v] rest IH]; intros acc rows H Hnd.
  - cbn in H. inversion H; subst. exists []. rewrite app_nil_r. now split.
  - destruct (table_rows_cons _ _ _ _ _ _ H) as (s & Hs & Hr).
    cbn [map fst] in Hnd.
    rewrite dict_set_fresh in Hr.
    + destruct (IH (acc ++ [(up k, s)]) rows Hr) as (new & Hn & HF).
      { rewrite map_app, <- app_assoc. exact Hnd. }
      exists ((up k, s) :: new). rewrite Hn, <- app_assoc. split; [reflexivity|].
      constructor; [now split|exact HF].
    + apply NoDup_remove_2 in Hnd. intros Hin. apply Hnd.
      apply in_or_app. now left.
Qed.

(** The first value that cannot be formatted ends the comprehension with
    its exception. *)
Lemma table_rows_error pre k v post e : forall acc,
  (forall k' v', In (k', v') pre -> exists s, format_f 2 v' = Ok s) ->
  format_f 2 v = Err e ->
  rows_of (pre ++ (k, v) :: post) acc = Err e.
Proof.
  induction pre as [|[k0 v0] pre IH]; intros acc Hpre He; cbn [List.app table_rows].
  - now rewrite He.
  - destruct (Hpre k0 v0 (or_introl eq_refl)) as [s Hs]. rewrite Hs. cbn [rbind].
    apply IH; [|exact He]. intros k' v' Hin. apply (Hpre k' v'). now right.
Qed.

(** X8: when no two keys of the mapping have the same uppercased text, and
    the table is built, the table has one row per entry, in the order of the
    mapping: each row holds the uppercased key and the value formatted with
    [.2f], and the keys of the rows are the labels of the bars of the chart,
    one for one. *)
Theorem X8_rows_and_bars_correspond d rows fig :
  NoDup (map (fun kv : pystr * pyvalue => up (fst kv)) d) ->
  table_data uni_upper (PyDict d) = Ok rows ->
  plot_components uni_upper plt_bar (PyDict d) = Ok fig ->
  Forall2 (fun (kv : pystr * pyvalue) (r : pystr * pystr) =>
             fst r = up (fst kv) /\ format_f 2 (snd kv) = Ok (snd r)) d rows
  /\ map fst rows = fig_x fig
  /\ List.length rows = List.length (fig_bars fig)
  /\ List.length rows = List.length d.
Proof.
  intros Hnd Ht Hp. cbn [table_data dict_items rbind] in Ht.
  destruct (table_rows_distinct d [] rows Ht Hnd) as (new & -> & HF).
  cbn [List.app].
  destruct (plot_components_drawn uni_upper plt_bar d fig Hp) as (Hx & _ & Hb & _).
  rewrite Hx, Hb.
  assert (Hlen : List.length new = List.length d)
    by (symmetry; exact (Forall2_length HF)).
  repeat split; auto.
  clear Ht Hnd Hp Hlen Hx Hb. induction HF as [|kv r d' new' [Hk _] _ IH]; [reflexivity|].
  cbn [map]. now rewrite Hk, IH.
Qed.

(** X9: a value that has no [.2f] format ends step 3 before the table.
    When the values before it can be formatted and it cannot, building the
    table raises its exception (ValueError for a string, TypeError for None,
    a list or an object), and step 3 ends with it after the category, label
    and advice: neither the table nor the chart is shown. *)
Theorem X9_an_unformattable_value_ends_step_3 pre k v post e :
  (forall k' v', In (k', v') pre -> exists s, format_f 2 v' = Ok s) ->
  format_f 2 v = Err e ->
  table_data uni_upper (PyDict (pre ++ (k, v) :: post)) = Err e
  /\ (forall py_str aqi dt label advice w,
         labelFor aqi = Ok label -> adviceFor aqi = Ok advice ->
         display py_str uni_upper plt_bar (mkReading aqi (PyDict (pre ++ (k, v) :: post)) dt) w
         = (Raise e,
            shown [UiSubheader (py "Air Quality Index (AQI)");
                   UiWrite (py "AQI scale ranges from 1 (Good) to 5 (Very Poor).");
                   UiMetric (py "AQI Value") (py_str aqi) label;
                   UiWrite advice;
                   UiSubheader (py "Pollutant Concentrations (μg/m³)")] w))
  /\ (forall s, format_f 2 (PyStr s) = Err ValueError)
  /\ format_f 2 PyNone = Err TypeError.
Proof.
  intros Hpre He.
  assert (Ht : table_data uni_upper (PyDict (pre ++ (k, v) :: post)) = Err e).
  { cbn [table_data dict_items rbind]. now apply table_rows_error. }
  split; [exact Ht|]. split; [|split; reflexivity].
  intros py_str aqi dt label advice w Hl Ha.
  unfold display, bind, show, lift. cbn [r_aqi r_components].
  rewrite Hl, Ha, Ht. now rewrite !shown_shown.
Qed.
End Rows.

(** X8 at the mapping pm2_5 = 15.2, o3 = 40.1. *)
Lemma X8_witness :
  table_data caseless (PyDict [(py "pm2_5", f_15_2); (py "o3", f_40_1)])
    = Ok [(py "PM2_5", py "15.20"); (py "O3", py "40.10")]
  /\ map fst [(py "PM2_5", py "15.20"); (py "O3", py "40.10")] = [py "PM2_5"; py "O3"]
  /\ List.length [(py "PM2_5", py "15.20"); (py "O3", py "40.10")] = 2%nat.
Proof.
  assert (Ht : table_data caseless (PyDict [(py "pm2_5", f_15_2); (py "o3", f_40_1)])
               = Ok [(py "PM2_5", py "15.20"); (py "O3", py "40.10")])
    by (vm_compute; reflexivity).
  split; [exact Ht|].
  assert (Hnd : NoDup (map (fun kv : pystr * pyvalue => upper caseless (fst kv))
                           [(py "pm2_5", f_15_2); (py "o3", f_40_1)])).
  { vm_compute. repeat constructor; simpl; intuition discriminate. }
  destruct (X8_rows_and_bars_correspond caseless plt_stand_in _ _
              (mkFigure [py "PM2_5"; py "O3"] [f_15_2; f_40_1] (py "skyblue")
                        (py "Air Pollutant Concentrations (μg/m³)")
                        (py "Concentration (μg/m³)") (py "y"))
              Hnd Ht ltac:(vm_compute; reflexivity)) as (_ & Hx & _ & Hl).
  split; [exact Hx|exact Hl].
Defined.

(** X9 at a mapping whose second value is None. *)
Lemma X9_witness :
  table_data caseless (PyDict ([(py "co", f_12_3)] ++ (py "no", PyNone) :: []))
  = Err TypeError.
Proof.
  refine (proj1 (X9_an_unformattable_value_ends_step_3 caseless plt_stand_in
                   [(py "co", f_12_3)] (py "no") PyNone [] TypeError _ _)).
  - intros k' v' [H|[]]. inversion H; subst. eexists. vm_compute. reflexivity.
  - reflexivity.
Defined.

(** ** Answers of an unexpected shape *)

Section Shapes.
Variable API_KEY : pystr.
Variable net : nat -> pystr -> response * Z.
Variable py_str : pyvalue -> pystr.
Variable uni_upper : N -> pystr.
Variable plt_bar : list pystr -> list pyvalue -> res unit.

(** X10: the label and advice look-ups raise only on a category that is a
    list or an object, and then TypeError; on every other value they return a
    text.  A reading with such a category ends step 3 with TypeError after
    the two heading elements, before the metric. *)
Theorem X10_only_an_unhashable_category_raises aqi :
  (forall e, labelFor aqi = Err e <->
             e = TypeError /\ ((exists l, aqi = PyList l) \/ (exists d, aqi = PyDict d)))
  /\ (forall e, adviceFor aqi = Err e <-> labelFor aqi = Err e)
  /\ (forall e components dt w,
         labelFor aqi = Err e ->
         display py_str uni_upper plt_bar (mkReading aqi components dt) w
         = (Raise e,
            shown [UiSubheader (py "Air Quality Index (AQI)");
                   UiWrite (py "AQI scale ranges from 1 (Good) to 5 (Very Poor).")] w)).
Proof.
  split; [|split].
  - intros e. unfold labelFor, dict_get, rbind.
    destruct aqi as [ |b|z|[neg m x|neg|]|s|l|d]; cbn [int_key];
      try (split; [discriminate|intros [_ [[? H]|[? H]]]; discriminate]).
    + repeat match goal with
             | |- context [if ?c then _ else _] => destruct c
             end;
        (split; [discriminate|intros [_ [[? H]|[? H]]]; discriminate]).
    + split; [intros H; inversion H; split; [reflexivity|left; now exists l]
             |now intros [-> _]].
    + split; [intros H; inversion H; split; [reflexivity|right; now exists d]
             |now intros [-> _]].
  - intros e. unfold adviceFor, labelFor, dict_get, rbind.
    destruct (int_key aqi); [split; discriminate|tauto].
  - intros e components dt w He.
    unfold display, bind, show, lift. cbn [r_aqi]. rewrite He.
    now rewrite !shown_shown.
Qed.

(** X11: what [geocode_city] makes of an answer that is not a list of
    candidates.  A falsy answer (null, false, 0, an empty string or object)
    is taken as no candidate and gives None; a non-empty object, such as the
    provider's error object, makes the subscript [res[0]] raise KeyError(0);
    a true or a non-zero number makes it raise TypeError. *)
Theorem X11_geocode_on_other_answers city w res dt :
  net (List.length (calls w)) (geocode_url API_KEY city) = (Body res, dt) ->
  (truthy res = false ->
   geocode_city_body API_KEY net city w
     = (Ret None, requested (geocode_url API_KEY city) dt w))
  /\ (forall d, res = PyDict d -> d <> [] ->
        geocode_city_body API_KEY net city w
          = (Raise (KeyError (PyInt 0)), requested (geocode_url API_KEY city) dt w))
  /\ (truthy res = true ->
      (exists b, res = PyBool b) \/ (exists z, res = PyInt z) \/ (exists f, res = PyFloat f) ->
      geocode_city_body API_KEY net city w
        = (Raise TypeError, requested (geocode_url API_KEY city) dt w)).
Proof.
  intros Hnet. split; [|split].
  - intros Hf. exact (geocode_city_body_falsy _ _ _ _ _ _ Hnet Hf).
  - intros d -> Hd. unfold geocode_city_body, bind, requests_get_json.
    rewrite Hnet. destruct d; [contradiction|reflexivity].
  - intros Ht Hs. unfold geocode_city_body, bind, requests_get_json.
    rewrite Hnet, Ht. destruct Hs as [[b ->]|[[z ->]|[f ->]]]; reflexivity.
Qed.
End Shapes.

(** X11 at the provider's answer to a request with a key it does not
    know. *)
Lemma X11_witness :
  let unauthorized :=
    PyDict [(py "cod", PyInt 401); (py "message", PyStr (py "Invalid API key."))] in
  net_of (Body unauthorized) taipei_air
         (List.length (calls (fresh 0))) (geocode_url (py "k") (py "Taipei"))
    = (Body unauthorized, 1%Z)
  /\ geocode_city_body (py "k") (net_of (Body unauthorized) taipei_air) (py "Taipei") (fresh 0)
     = (Raise (KeyError (PyInt 0)), requested (geocode_url (py "k") (py "Taipei")) 1 (fresh 0)).
Proof.
  cbv zeta.
  assert (Hn : net_of (Body (PyDict [(py "cod", PyInt 401);
                                     (py "message", PyStr (py "Invalid API key."))]))
                      taipei_air
                      (List.length (calls (fresh 0))) (geocode_url (py "k") (py "Taipei"))
               = (Body (PyDict [(py "cod", PyInt 401);
                                (py "message", PyStr (py "Invalid API key."))]), 1%Z))
    by (vm_compute; reflexivity).
  split; [exact Hn|].
  refine (proj1 (proj2 (X11_geocode_on_other_answers _ _ _ _ _ _ Hn)) _ eq_refl _).
  vm_compute; discriminate.
Defined.

(** ** The digits after the point *)

Lemma pad_digits_length (p : nat) : forall n, List.length (pad_digits p n) = p.
Proof.
  induction p as [|p IH]; intros n; cbn [pad_digits]; [reflexivity|].
  rewrite length_app, IH. cbn [List.length]. lia.
Qed.

Lemma pad_digits_digits (p : nat) : forall n, Forall is_digit (pad_digits p n).
Proof.
  induction p as [|p IH]; intros n; cbn [pad_digits]; [constructor|].
  apply Forall_app. split; [apply IH|]. constructor; [|constructor].
  unfold is_digit.
  assert (H : n mod 10 < 10) by (apply N.mod_lt; discriminate).
  revert H. generalize (n mod 10). intros; lia.
Qed.

Lemma fixed_point_places (p : nat) (neg : bool) (scaled : N) :
  decimal_places (S p) (fixed_point (S p) neg scaled).
Proof.
  exists (if neg then [45] else []), (decimal (scaled / 10 ^ N.of_nat (S p))),
    (pad_digits (S p) (scaled mod 10 ^ N.of_nat (S p))).
  split; [reflexivity|]. split; [destruct neg; auto|].
  split; [apply uint_codes_digits|]. split; [apply decimal_nonempty|].
  split; [apply pad_digits_digits|apply pad_digits_length].
Qed.

Lemma format_f_places (p : nat) (v : pyvalue) (s : pystr) :
  finite_number v = true -> format_f (S p) v = Ok s -> decimal_places (S p) s.
Proof.
  destruct v as [ |b|z|[neg m e|neg|]|x|l|d]; cbn [finite_number format_f];
    try discriminate; intros _.
  - intros H. inversion H. apply fixed_point_places.
  - unfold float_of_int.
    repeat match goal with
           | |- context [if ?c then _ else _] => destruct c
           end; cbn [rbind]; try discriminate;
      intros H; inversion H; apply fixed_point_places.
  - intros H. inversion H. apply fixed_point_places.
Qed.

(** X13: the coordinates are shown with five decimals.  When the two
    coordinates of the geocoding result are finite numbers with a [.5f] text,
    the handler goes on to the air-quality call having shown the readout
    "📍 Coordinates: (lat, lon)" in which each number has exactly five digits
    after its point; a float always has such a text. *)
Theorem X13_coordinates_are_shown_with_five_decimals
        API_KEY net py_str uni_upper plt_bar city w lat lon w1 slat slon :
  API_KEY <> [] -> strip city <> [] ->
  geocode_city API_KEY net (strip city) (shown [UiSpinner msg_looking_up] w)
    = (Ret (Some (lat, lon)), w1) ->
  finite_number lat = true -> finite_number lon = true ->
  format_f 5 lat = Ok slat -> format_f 5 lon = Ok slon ->
  (exists rest,
      ui (snd (on_submit API_KEY net py_str uni_upper plt_bar city w))
      = ui w1 ++ UiInfo (py "📍 Coordinates: (" ++ slat ++ py ", " ++ slon ++ py ")")
              :: UiSpinner msg_fetching :: rest)
  /\ decimal_places 5 slat /\ decimal_places 5 slon
  /\ (forall f, exists s, format_f 5 (PyFloat f) = Ok s).
Proof.
  intros Hk Hc Hg Hfa Hfo Hsa Hso.
  split; [|split; [exact (format_f_places 4 _ _ Hfa Hsa)
                  |split; [exact (format_f_places 4 _ _ Hfo Hso)|]]].
  - rewrite (on_submit_coords _ _ _ _ _ _ _ _ _ _ _ _ Hk Hc Hg Hsa Hso).
    assert (Hgr : grows 1 (request_of API_KEY py_str city)
                    (bind (fetch_air_quality API_KEY net py_str lat lon)
                          (after_fetch py_str uni_upper plt_bar))).
    { apply grows_then_shows; [|intros aq; apply after_fetch_only_shows].
      apply (grows_weaken 1 1 (eq (air_quality_url API_KEY py_str lat lon)));
        [lia| |apply fetch_air_quality_grows].
      intros u <-. right. now exists lat, lon. }
    destruct (Hgr (shown [UiInfo (coords_text slat slon); UiSpinner msg_fetching] w1))
      as (es & cs & Hu & _).
    exists es. rewrite Hu. cbn [shown ui]. now rewrite <- app_assoc.
  - intros f. now eexists.
Qed.

(** X13 at the coordinates 25 and 121. *)
Lemma X13_witness :
  decimal_places 5 (py "25.00000") /\ decimal_places 5 (py "121.00000").
Proof.
  refine (let H := X13_coordinates_are_shown_with_five_decimals
                     (py "k") (net_of taipei taipei_air) str_scalar caseless plt_stand_in
                     (py "Taipei") (fresh 0) (PyInt 25) (PyInt 121) _
                     (py "25.00000") (py "121.00000") _ _ _ _ _ _ _ in
          conj (proj1 (proj2 H)) (proj1 (proj2 (proj2 H))));
    try (vm_compute; reflexivity); vm_compute; discriminate.
Defined.

(** X10 at a reading whose category is an empty list. *)
Lemma X10_witness :
  labelFor (PyList []) = Err TypeError
  /\ display str_scalar caseless plt_stand_in (mkReading (PyList []) (PyDict []) PyNone) (fresh 0)
     = (Raise TypeError,
        shown [UiSubheader (py "Air Quality Index (AQI)");
               UiWrite (py "AQI scale ranges from 1 (Good) to 5 (Very Poor).")] (fresh 0)).
Proof.
  assert (H : labelFor (PyList []) = Err TypeError) by reflexivity.
  split; [exact H|].
  exact (proj2 (proj2 (X10_only_an_unhashable_category_raises
                         str_scalar caseless plt_stand_in (PyList [])))
               TypeError (PyDict []) PyNone (fresh 0) H).
Defined.
